(** * Carla library utils: the dual-path loader facade of CarlaLibUtils.hpp

    A shallow embedding of [source/utils/CarlaLibUtils.hpp] in its POSIX
    configuration ([CARLA_OS_WIN] undefined; the box64 path only exists
    there).  The operating system's loader and the box64 bridge are an
    external world: every call into them is answered by a [Platform]
    and recorded, with its answer, in the list of events of the run.

    What the embedding takes from C and C++:
    - the functions of <dlfcn.h> and [setenv] are C functions and do not
      throw; a call through one of the bridge's function pointers may;
    - [abort()] and [std::terminate] end the process, and so, for all
      that can be said, does a call through a null function pointer;
    - only this translation unit writes its two [static] pointers and,
      among the calls modelled, the environment.

    The branches under [CARLA_OS_WIN] are embedded apart, in module
    [Win].  Module [Throwing] embeds the five functions once more over
    a loader that may throw, to examine the handlers. *)

From Stdlib Require Import ZArith Ascii String List.
From Stdlib Require Import DecimalString.
From stdpp Require Import gmap strings.

Local Open Scope string_scope.
Local Open Scope list_scope.
Local Open Scope Z_scope.

(** ** Data *)

(** [void*], [lib_t] and the function pointers are addresses; [nullptr]
    is address 0. *)
Definition ptr : Type := Z.
Definition nullptr : ptr := 0.
Definition lib_t : Type := ptr.

(** A [const char*] argument is [None] for the null pointer and [Some s]
    for a pointer to the NUL-terminated text [s]. *)
Definition cstr : Type := option string.

(** [p != nullptr && p[0] != '\0'] *)
Definition nonempty (p : cstr) : bool :=
  match p with
  | Some (String _ _) => true
  | _ => false
  end.

(** [p] points to the text [s] (as [strcmp] would find). *)
Definition named (p : cstr) (s : string) : bool :=
  match p with
  | Some t => String.eqb t s
  | None => false
  end.

(** Flag values of glibc's <dlfcn.h>. *)
Definition RTLD_LOCAL : Z := 0.
Definition RTLD_NOW : Z := 2.
Definition RTLD_GLOBAL : Z := 256.

Definition dquote : string := String (ascii_of_nat 34) EmptyString.
Definition newline : string := String (ascii_of_nat 10) EmptyString.

(** What a call through a plain (not [noexcept]) function pointer into
    foreign code gives back: a value, or a C++ exception. *)
Inductive answer (A : Type) : Type :=
| Returns (a : A)
| Throws.
Arguments Returns {A} a.
Arguments Throws {A}.

(** The external world.  [dlopen], [dlsym], [dlclose] and [dlerror] are
    the C functions of <dlfcn.h>, which cannot throw; the three [call_*]
    fields run the code found at an address of the bridge, with the
    signatures [InitializeFunction], [LoadLibraryWithEmulatorFunction] and
    [RunFuncWithEmulatorFunction].  Each sees the process environment and
    its own state [W] and leaves a new state [W]. *)
Class Platform (W : Type) : Type := {
  dlopen : gmap string string -> W -> cstr -> Z -> W * ptr;
  dlsym : gmap string string -> W -> ptr -> cstr -> W * ptr;
  dlclose : gmap string string -> W -> ptr -> W * Z;
  dlerror : gmap string string -> W -> W * cstr;
  call_init : gmap string string -> W -> ptr -> W * answer Z;
  call_load : gmap string string -> W -> ptr -> cstr -> W * answer ptr;
  call_run : gmap string string -> W -> ptr -> ptr -> cstr -> W * answer ptr
}.

(** The process-wide state: the two [static] function pointers of the
    header, the environment, and the state of the external world. *)
Record process (W : Type) : Type := Process {
  RunFuncWithEmulator : ptr;
  LoadLibraryWithEmulator : ptr;
  environ : gmap string string;
  world : W
}.
Arguments Process {W} _ _ _ _.
Arguments RunFuncWithEmulator {W} _.
Arguments LoadLibraryWithEmulator {W} _.
Arguments environ {W} _.
Arguments world {W} _.

(** One entry per call that leaves the translation unit, with what it
    answered. *)
Inductive event : Type :=
| Esetenv (name value : string) (overwrite : Z)
| Edlopen (file : cstr) (flags : Z) (ret : ptr)
| Edlsym (handle : ptr) (name : cstr) (ret : ptr)
| Edlclose (handle : ptr) (ret : Z)
| Edlerror (ret : cstr)
| Ecall_init (f : ptr) (ret : answer Z)
| Ecall_load (f : ptr) (path : cstr) (ret : answer ptr)
| Ecall_run (f : ptr) (handle : ptr) (name : cstr) (ret : answer ptr)
| Efprintf_stderr (fmt : string) (args : list cstr)
| Eprintf (fmt : string)
| Esafe_assert (cond : string)
| Esafe_exception (what : string)
| Eabort.

(** How a piece of code ends. *)
Inductive outcome (A : Type) : Type :=
| Normal (a : A)      (* falls through or returns [a] *)
| Exception           (* a C++ exception is in flight *)
| Abort               (* [abort()] ended the process *)
| Terminate           (* an exception reached a [noexcept] boundary *)
| NullCall.           (* a call through a null function pointer *)
Arguments Normal {A} a.
Arguments Exception {A}.
Arguments Abort {A}.
Arguments Terminate {A}.
Arguments NullCall {A}.

(** ** The monad of the embedding: state, events, outcome *)

Definition M (W A : Type) : Type := process W -> process W * list event * outcome A.

Definition final {W A} (r : process W * list event * outcome A) : process W := r.1.1.
Definition events {W A} (r : process W * list event * outcome A) : list event := r.1.2.
Definition result {W A} (r : process W * list event * outcome A) : outcome A := r.2.

Definition ret {W A} (a : A) : M W A := fun s => (s, [], Normal a).

Definition bind {W A B} (m : M W A) (k : A -> M W B) : M W B := fun s =>
  match m s with
  | (s1, e1, Normal a) =>
      match k a s1 with
      | (s2, e2, o) => (s2, e1 ++ e2, o)
      end
  | (s1, e1, Exception) => (s1, e1, Exception)
  | (s1, e1, Abort) => (s1, e1, Abort)
  | (s1, e1, Terminate) => (s1, e1, Terminate)
  | (s1, e1, NullCall) => (s1, e1, NullCall)
  end.

Notation "x <- m ;; k" := (bind m (fun x => k))
  (at level 100, m at next level, right associativity).
Notation "m ;;; k" := (bind m (fun _ => k))
  (at level 100, right associativity).

Definition emit {W} (e : event) : M W unit := fun s => (s, [e], Normal tt).

(** [try { body } catch (...) { handler }] *)
Definition try_catch {W A} (body handler : M W A) : M W A := fun s =>
  match body s with
  | (s1, e1, Exception) =>
      match handler s1 with
      | (s2, e2, o) => (s2, e1 ++ e2, o)
      end
  | r => r
  end.

(** A function declared [noexcept]: an exception that would leave it
    ends the process through [std::terminate]. *)
Definition noexcept {W A} (m : M W A) : M W A := fun s =>
  match m s with
  | (s1, e1, Exception) => (s1, e1, Terminate)
  | r => r
  end.

(** Modelled from the spec: the macro [CARLA_SAFE_ASSERT_RETURN] comes
    from CarlaUtils.hpp, which is not among the sources.  A failed check
    returns the given value before anything is delegated; the report the
    macro files is kept as one event. *)
Definition CARLA_SAFE_ASSERT_RETURN {W A} (cond : bool) (text : string) (value : A)
    (rest : M W A) : M W A :=
  if cond then rest else (emit (Esafe_assert text) ;;; ret value).

(** Modelled from the spec: the macro [CARLA_SAFE_EXCEPTION_RETURN] comes
    from CarlaUtils.hpp, which is not among the sources.  It is the
    [catch (...)] clause of the preceding [try]: any fault is caught and
    converted to the given value; the report it files is one event. *)
Definition CARLA_SAFE_EXCEPTION_RETURN {W A} (what : string) (value : A) : M W A :=
  emit (Esafe_exception what) ;;; ret value.

(** [abort()] *)
Definition abort {W A} : M W A := fun s => (s, [Eabort], Abort).

Definition fprintf_stderr {W} (fmt : string) (args : list cstr) : M W unit :=
  emit (Efprintf_stderr fmt args).

Definition printf {W} (fmt : string) : M W unit := emit (Eprintf fmt).

(** [setenv(name, value, overwrite)]: the variable is written when
    [overwrite] is non-zero or the variable is not set yet.  The header
    ignores the status; running out of memory is not modelled. *)
Definition setenv {W} (name value : string) (overwrite : Z) : M W Z := fun s =>
  let env := environ s in
  let env' := if (negb (overwrite =? 0)) || negb (bool_decide (is_Some (env !! name)))
              then <[name := value]> env else env in
  (Process (RunFuncWithEmulator s) (LoadLibraryWithEmulator s) env' (world s),
   [Esetenv name value overwrite], Normal 0).

Definition set_LoadLibraryWithEmulator {W} (p : ptr) : M W unit := fun s =>
  (Process (RunFuncWithEmulator s) p (environ s) (world s), [], Normal tt).

Definition set_RunFuncWithEmulator {W} (p : ptr) : M W unit := fun s =>
  (Process p (LoadLibraryWithEmulator s) (environ s) (world s), [], Normal tt).

Definition get_LoadLibraryWithEmulator {W} : M W ptr := fun s =>
  (s, [], Normal (LoadLibraryWithEmulator s)).

Definition get_RunFuncWithEmulator {W} : M W ptr := fun s =>
  (s, [], Normal (RunFuncWithEmulator s)).

Definition with_world {W} (s : process W) (w : W) : process W :=
  Process (RunFuncWithEmulator s) (LoadLibraryWithEmulator s) (environ s) w.

Section Calls.
Context {W : Type} {P : Platform W}.

Definition do_dlopen (file : cstr) (flags : Z) : M W ptr := fun s =>
  match dlopen (environ s) (world s) file flags with
  | (w, h) => (with_world s w, [Edlopen file flags h], Normal h)
  end.

Definition do_dlsym (handle : ptr) (name : cstr) : M W ptr := fun s =>
  match dlsym (environ s) (world s) handle name with
  | (w, p) => (with_world s w, [Edlsym handle name p], Normal p)
  end.

Definition do_dlclose (handle : ptr) : M W Z := fun s =>
  match dlclose (environ s) (world s) handle with
  | (w, r) => (with_world s w, [Edlclose handle r], Normal r)
  end.

Definition do_dlerror : M W cstr := fun s =>
  match dlerror (environ s) (world s) with
  | (w, r) => (with_world s w, [Edlerror r], Normal r)
  end.

Definition of_answer {A} (s : process W) (e : event) (a : answer A)
    : process W * list event * outcome A :=
  match a with
  | Returns v => (s, [e], Normal v)
  | Throws => (s, [e], Exception)
  end.

(** A call through a function pointer: through the null pointer it is
    undefined; otherwise the code at that address runs. *)
Definition invoke_init (f : ptr) : M W Z := fun s =>
  if f =? 0 then (s, [], NullCall)
  else match call_init (environ s) (world s) f with
       | (w, a) => of_answer (with_world s w) (Ecall_init f a) a
       end.

Definition invoke_load (f : ptr) (path : cstr) : M W ptr := fun s =>
  if f =? 0 then (s, [], NullCall)
  else match call_load (environ s) (world s) f path with
       | (w, a) => of_answer (with_world s w) (Ecall_load f path a) a
       end.

Definition invoke_run (f : ptr) (handle : ptr) (name : cstr) : M W ptr := fun s =>
  if f =? 0 then (s, [], NullCall)
  else match call_run (environ s) (world s) f handle name with
       | (w, a) => of_answer (with_world s w) (Ecall_run f handle name a) a
       end.
End Calls.

(** ** The header's functions *)

Section Facade.
Context {W : Type} {P : Platform W}.

Definition box64_lib_path : string :=
  "/home/javier/Documents/Github/box64/build/libbox64.so".
Definition box64_ld_library_path : string :=
  "/home/javier/Documents/Github/box64/x64lib".

Definition fmt_load_error : string :=
  "Error loading box64 library: %s" +:+ newline.
Definition fmt_symbol_error (symbol : string) : string :=
  "Error getting symbol " +:+ dquote +:+ symbol +:+ dquote +:+
  " from box64 library: %s" +:+ newline.
Definition fmt_init_error : string :=
  "Error initializing box64 library" +:+ newline.
Definition fmt_initialized : string :=
  "box64 library initialized." +:+ newline.

(** [if (!p) { fprintf(stderr, fmt, dlerror()); abort(); }] *)
Definition abort_if_null (p : ptr) (fmt : string) : M W unit :=
  if p =? 0 then
    (e <- do_dlerror ;;
     fprintf_stderr fmt [e] ;;;
     abort)
  else ret tt.

Definition InitBox64 : M W unit :=
  setenv "BOX64_LD_LIBRARY_PATH" box64_ld_library_path 1 ;;;
  box64_lib_handle <- do_dlopen (Some box64_lib_path) (Z.lor RTLD_GLOBAL RTLD_NOW) ;;
  abort_if_null box64_lib_handle fmt_load_error ;;;
  box64_init_func <- do_dlsym box64_lib_handle (Some "Initialize") ;;
  abort_if_null box64_init_func (fmt_symbol_error "Initialize") ;;;
  status <- invoke_init box64_init_func ;;
  (if negb (status =? 0) then
     (fprintf_stderr fmt_init_error [] ;;;
      abort)
   else ret tt) ;;;
  load <- do_dlsym box64_lib_handle (Some "LoadX64Library") ;;
  set_LoadLibraryWithEmulator load ;;;
  load' <- get_LoadLibraryWithEmulator ;;
  abort_if_null load' (fmt_symbol_error "LoadX64Library") ;;;
  run <- do_dlsym box64_lib_handle (Some "RunX64Function") ;;
  set_RunFuncWithEmulator run ;;;
  run' <- get_RunFuncWithEmulator ;;
  abort_if_null run' (fmt_symbol_error "RunX64Function") ;;;
  printf fmt_initialized.

Definition lib_open (filename : cstr) (global use_libbox64 : bool) : M W lib_t :=
  noexcept
    (CARLA_SAFE_ASSERT_RETURN (nonempty filename)
       "filename != nullptr && filename[0] != '\0'" nullptr
       (try_catch
          (if use_libbox64 then
             (InitBox64 ;;;
              f <- get_LoadLibraryWithEmulator ;;
              invoke_load f filename)
           else
             do_dlopen filename
               (Z.lor RTLD_NOW (if global then RTLD_GLOBAL else RTLD_LOCAL)))
          (CARLA_SAFE_EXCEPTION_RETURN "lib_open" nullptr))).

Definition lib_close (lib : lib_t) : M W bool :=
  noexcept
    (CARLA_SAFE_ASSERT_RETURN (negb (lib =? nullptr)) "lib != nullptr" false
       (try_catch
          (r <- do_dlclose lib ;;
           ret (r =? 0))
          (CARLA_SAFE_EXCEPTION_RETURN "lib_close" false))).

Definition lib_symbol (lib : lib_t) (symbol : cstr) (use_libbox64 : bool) : M W ptr :=
  noexcept
    (CARLA_SAFE_ASSERT_RETURN (negb (lib =? nullptr)) "lib != nullptr" nullptr
       (CARLA_SAFE_ASSERT_RETURN (nonempty symbol)
          "symbol != nullptr && symbol[0] != '\0'" nullptr
          (try_catch
             (if use_libbox64 then
                (f <- get_RunFuncWithEmulator ;;
                 invoke_run f lib symbol)
              else
                do_dlsym lib symbol)
             (CARLA_SAFE_EXCEPTION_RETURN "lib_symbol" nullptr)))).

Definition lib_error (filename : cstr) (use_libbox64 : bool) : M W cstr :=
  noexcept
    (CARLA_SAFE_ASSERT_RETURN (nonempty filename)
       "filename != nullptr && filename[0] != '\0'" None
       do_dlerror).
End Facade.

(** ** Reading a run *)

(** The calls that reach the operating system's loader or the bridge. *)
Definition is_loader_call (e : event) : bool :=
  match e with
  | Edlopen _ _ _ | Edlsym _ _ _ | Edlclose _ _ | Edlerror _
  | Ecall_init _ _ | Ecall_load _ _ _ | Ecall_run _ _ _ _ => true
  | _ => false
  end.

(** The failures of the bootstrap sequence, read off the answers of the
    external calls: the bridge did not load, an entry point is absent, or
    the initializer gave a non-zero status. *)
Definition bootstrap_failure (e : event) : bool :=
  match e with
  | Edlopen file _ ret => (ret =? 0) && named file box64_lib_path
  | Edlsym _ name ret =>
      (ret =? 0) &&
      (named name "Initialize" || named name "LoadX64Library"
       || named name "RunX64Function")
  | Ecall_init _ (Returns status) => negb (status =? 0)
  | _ => false
  end.

(** BridgeState: both fields null, or both non-null. *)
Definition bridge_unset {W} (s : process W) : Prop :=
  LoadLibraryWithEmulator s = nullptr /\ RunFuncWithEmulator s = nullptr.
Definition bridge_set {W} (s : process W) : Prop :=
  LoadLibraryWithEmulator s <> nullptr /\ RunFuncWithEmulator s <> nullptr.
Definition bridge_consistent {W} (s : process W) : Prop :=
  bridge_unset s \/ bridge_set s.

(** The frame: the two fields and the environment are as they were. *)
Definition same_bridge_state {W} (s s' : process W) : Prop :=
  RunFuncWithEmulator s' = RunFuncWithEmulator s /\
  LoadLibraryWithEmulator s' = LoadLibraryWithEmulator s /\
  environ s' = environ s.

(** The process is still running after the operation: it returned to its
    caller. *)
Definition returned {A} (o : outcome A) : bool :=
  match o with
  | Normal _ => true
  | _ => false
  end.

(** ** The seven ways a run of [InitBox64] can go

    [InitBox64_run s r] lists, from the answers of the external calls,
    every run of the bootstrap sequence from [s]: where it stops, what it
    leaves in the process state, which calls it made in which order. *)

Section Bootstrap_runs.
Context {W : Type} {P : Platform W}.

Definition bridge_env (s : process W) : gmap string string :=
  <["BOX64_LD_LIBRARY_PATH" := box64_ld_library_path]> (environ s).
Definition bridge_flags : Z := Z.lor RTLD_GLOBAL RTLD_NOW.

Definition ev_open (h : ptr) : list event :=
  [Esetenv "BOX64_LD_LIBRARY_PATH" box64_ld_library_path 1;
   Edlopen (Some box64_lib_path) bridge_flags h].
Definition ev_fatal (fmt : string) (e : cstr) : list event :=
  [Edlerror e; Efprintf_stderr fmt [e]; Eabort].
Definition ev_sym (h : ptr) (name : string) (p : ptr) : event :=
  Edlsym h (Some name) p.

Inductive InitBox64_run (s : process W) : process W * list event * outcome unit -> Prop :=
| run_no_bridge w1 w2 e :
    dlopen (bridge_env s) (world s) (Some box64_lib_path) bridge_flags = (w1, 0) ->
    dlerror (bridge_env s) w1 = (w2, e) ->
    InitBox64_run s
      (Process (RunFuncWithEmulator s) (LoadLibraryWithEmulator s) (bridge_env s) w2,
       ev_open 0 ++ ev_fatal fmt_load_error e,
       Abort)
| run_no_initialize w1 h w2 w3 e :
    dlopen (bridge_env s) (world s) (Some box64_lib_path) bridge_flags = (w1, h) ->
    h <> 0 ->
    dlsym (bridge_env s) w1 h (Some "Initialize") = (w2, 0) ->
    dlerror (bridge_env s) w2 = (w3, e) ->
    InitBox64_run s
      (Process (RunFuncWithEmulator s) (LoadLibraryWithEmulator s) (bridge_env s) w3,
       ev_open h ++ ev_sym h "Initialize" 0 :: ev_fatal (fmt_symbol_error "Initialize") e,
       Abort)
| run_initialize_throws w1 h w2 init w3 :
    dlopen (bridge_env s) (world s) (Some box64_lib_path) bridge_flags = (w1, h) ->
    h <> 0 ->
    dlsym (bridge_env s) w1 h (Some "Initialize") = (w2, init) ->
    init <> 0 ->
    call_init (bridge_env s) w2 init = (w3, Throws) ->
    InitBox64_run s
      (Process (RunFuncWithEmulator s) (LoadLibraryWithEmulator s) (bridge_env s) w3,
       ev_open h ++ [ev_sym h "Initialize" init; Ecall_init init Throws],
       Exception)
| run_initialize_fails w1 h w2 init w3 status :
    dlopen (bridge_env s) (world s) (Some box64_lib_path) bridge_flags = (w1, h) ->
    h <> 0 ->
    dlsym (bridge_env s) w1 h (Some "Initialize") = (w2, init) ->
    init <> 0 ->
    call_init (bridge_env s) w2 init = (w3, Returns status) ->
    status <> 0 ->
    InitBox64_run s
      (Process (RunFuncWithEmulator s) (LoadLibraryWithEmulator s) (bridge_env s) w3,
       ev_open h ++ [ev_sym h "Initialize" init; Ecall_init init (Returns status);
                     Efprintf_stderr fmt_init_error []; Eabort],
       Abort)
| run_no_load w1 h w2 init w3 w4 w5 e :
    dlopen (bridge_env s) (world s) (Some box64_lib_path) bridge_flags = (w1, h) ->
    h <> 0 ->
    dlsym (bridge_env s) w1 h (Some "Initialize") = (w2, init) ->
    init <> 0 ->
    call_init (bridge_env s) w2 init = (w3, Returns 0) ->
    dlsym (bridge_env s) w3 h (Some "LoadX64Library") = (w4, 0) ->
    dlerror (bridge_env s) w4 = (w5, e) ->
    InitBox64_run s
      (Process (RunFuncWithEmulator s) 0 (bridge_env s) w5,
       ev_open h ++ [ev_sym h "Initialize" init; Ecall_init init (Returns 0)]
         ++ ev_sym h "LoadX64Library" 0 :: ev_fatal (fmt_symbol_error "LoadX64Library") e,
       Abort)
| run_no_run w1 h w2 init w3 w4 load w5 w6 e :
    dlopen (bridge_env s) (world s) (Some box64_lib_path) bridge_flags = (w1, h) ->
    h <> 0 ->
    dlsym (bridge_env s) w1 h (Some "Initialize") = (w2, init) ->
    init <> 0 ->
    call_init (bridge_env s) w2 init = (w3, Returns 0) ->
    dlsym (bridge_env s) w3 h (Some "LoadX64Library") = (w4, load) ->
    load <> 0 ->
    dlsym (bridge_env s) w4 h (Some "RunX64Function") = (w5, 0) ->
    dlerror (bridge_env s) w5 = (w6, e) ->
    InitBox64_run s
      (Process 0 load (bridge_env s) w6,
       ev_open h ++ [ev_sym h "Initialize" init; Ecall_init init (Returns 0);
                     ev_sym h "LoadX64Library" load]
         ++ ev_sym h "RunX64Function" 0 :: ev_fatal (fmt_symbol_error "RunX64Function") e,
       Abort)
| run_initialized w1 h w2 init w3 w4 load w5 run :
    dlopen (bridge_env s) (world s) (Some box64_lib_path) bridge_flags = (w1, h) ->
    h <> 0 ->
    dlsym (bridge_env s) w1 h (Some "Initialize") = (w2, init) ->
    init <> 0 ->
    call_init (bridge_env s) w2 init = (w3, Returns 0) ->
    dlsym (bridge_env s) w3 h (Some "LoadX64Library") = (w4, load) ->
    load <> 0 ->
    dlsym (bridge_env s) w4 h (Some "RunX64Function") = (w5, run) ->
    run <> 0 ->
    InitBox64_run s
      (Process run load (bridge_env s) w5,
       ev_open h ++ [ev_sym h "Initialize" init; Ecall_init init (Returns 0);
                     ev_sym h "LoadX64Library" load; ev_sym h "RunX64Function" run;
                     Eprintf fmt_initialized],
       Normal tt).
End Bootstrap_runs.

(** ** Sequences of calls of the public interface *)

Inductive call : Type :=
| Call_lib_open (filename : cstr) (global use_libbox64 : bool)
| Call_lib_close (lib : lib_t)
| Call_lib_symbol (lib : lib_t) (symbol : cstr) (use_libbox64 : bool)
| Call_lib_error (filename : cstr) (use_libbox64 : bool).

Section Sequences.
Context {W : Type} {P : Platform W}.

(** The state the caller finds when the call comes back; [None] when
    the process did not survive it. *)
Definition survive {A} (r : process W * list event * outcome A) : option (process W) :=
  if returned (result r) then Some (final r) else None.

Definition perform (c : call) (s : process W) : option (process W) :=
  match c with
  | Call_lib_open filename global use_libbox64 =>
      survive (lib_open filename global use_libbox64 s)
  | Call_lib_close lib => survive (lib_close lib s)
  | Call_lib_symbol lib symbol use_libbox64 =>
      survive (lib_symbol lib symbol use_libbox64 s)
  | Call_lib_error filename use_libbox64 =>
      survive (lib_error filename use_libbox64 s)
  end.

Fixpoint perform_all (cs : list call) (s : process W) : option (process W) :=
  match cs with
  | [] => Some s
  | c :: cs' =>
      match perform c s with
      | Some s' => perform_all cs' s'
      | None => None
      end
  end.
End Sequences.

(** ** More readings of a run *)

(** A foreign call ended in an exception. *)
Definition fault (e : event) : bool :=
  match e with
  | Ecall_init _ Throws | Ecall_load _ _ Throws | Ecall_run _ _ _ Throws => true
  | _ => false
  end.

(** The steps that only the bootstrap sequence takes. *)
Definition is_bootstrap_step (e : event) : bool :=
  match e with
  | Esetenv _ _ _ | Ecall_init _ _ => true
  | Edlopen file _ _ => named file box64_lib_path
  | _ => false
  end.

Definition is_init_resolution (e : event) : bool :=
  match e with
  | Edlsym _ name ret => named name "Initialize" && negb (ret =? 0)
  | _ => false
  end.

Definition is_init_call (e : event) : bool :=
  match e with
  | Ecall_init _ _ => true
  | _ => false
  end.

Definition is_init_success (e : event) : bool :=
  match e with
  | Ecall_init _ (Returns status) => status =? 0
  | _ => false
  end.

Definition is_entry_resolution (e : event) : bool :=
  match e with
  | Edlsym _ name _ =>
      named name "LoadX64Library" || named name "RunX64Function"
  | _ => false
  end.

Definition is_setenv_or_dlopen (e : event) : bool :=
  match e with
  | Esetenv _ _ _ | Edlopen _ _ _ => true
  | _ => false
  end.

(** No [later] event happens until a [first] event has happened. *)
Fixpoint not_before (first later : event -> bool) (l : list event) : bool :=
  match l with
  | [] => true
  | e :: l' => if first e then true else negb (later e) && not_before first later l'
  end.

(** Two recorded loader answers do not contradict each other: the same
    [dlopen] or [dlsym] question got the same answer. *)
Definition answers_agree (a b : event) : bool :=
  match a, b with
  | Edlopen f1 g1 r1, Edlopen f2 g2 r2 =>
      implb (bool_decide (f1 = f2) && (g1 =? g2)) (r1 =? r2)
  | Edlsym h1 n1 r1, Edlsym h2 n2 r2 =>
      implb ((h1 =? h2) && bool_decide (n1 = n2)) (r1 =? r2)
  | _, _ => true
  end.

(** A stable bridge component over two runs: every [dlopen] and [dlsym]
    call of the second run was answered as the same call of the first. *)
Definition stable_bridge (first second : list event) : bool :=
  forallb (fun b => forallb (fun a => answers_agree a b) first) second.

(** ** A scripted platform, for concrete runs *)

Record bridge_script : Type := Script {
  on_dlopen : ptr;              (* dlopen of the bridge *)
  on_Initialize : ptr;          (* dlsym "Initialize" *)
  on_status : answer Z;         (* Initialize() *)
  on_LoadX64Library : ptr;      (* dlsym "LoadX64Library" *)
  on_RunX64Function : ptr;      (* dlsym "RunX64Function" *)
  on_load : answer ptr;         (* LoadX64Library(path) *)
  on_run : answer ptr           (* RunX64Function(handle, name) *)
}.

(** The world counts the calls it has served.  Besides the bridge there
    is one native library, "libfoo.so", at handle 4096, exporting
    "doWork" at 20480. *)
Definition scripted (b : bridge_script) : Platform nat := {|
  dlopen := fun _ w file _ =>
    (S w, if named file box64_lib_path then on_dlopen b
          else if named file "libfoo.so" then 4096 else 0);
  dlsym := fun _ w h name =>
    (S w, if (h =? on_dlopen b) && negb (h =? 0) then
            if named name "Initialize" then on_Initialize b
            else if named name "LoadX64Library" then on_LoadX64Library b
            else if named name "RunX64Function" then on_RunX64Function b
            else 0
          else if (h =? 4096) && named name "doWork" then 20480 else 0);
  dlclose := fun _ w h => (S w, if h =? 4096 then 0 else -1);
  dlerror := fun _ w => (w, match w with O => None | S _ => Some "loader error" end);
  call_init := fun _ w _ => (S w, on_status b);
  call_load := fun _ w _ _ => (S w, on_load b);
  call_run := fun _ w _ _ _ => (S w, on_run b)
|}.

Definition good_bridge : bridge_script :=
  Script 28672 28928 (Returns 0) 29184 29440 (Returns 36864) (Returns 37120).

(** The process at start-up: both pointers [NULL], nothing in the
    environment. *)
Definition startup : process nat := Process nullptr nullptr ∅ O.

(** A process in which an earlier emulated open has populated BridgeState. *)
Definition populated : process nat :=
  final (lib_open (P := scripted good_bridge) (Some "plugin.so") false true startup).

(** A bridge that exports no "RunX64Function". *)
Definition bridge_without_run : bridge_script :=
  Script 28672 28928 (Returns 0) 29184 0 (Returns 36864) (Returns 37120).

(** A session of the host: an emulated open, a symbol from it, a look at
    the last error, a native open and the matching close. *)
Definition session : list call :=
  [Call_lib_open (Some "plugin.so") false true;
   Call_lib_symbol 36864 (Some "VSTPluginMain") true;
   Call_lib_error (Some "plugin.so") true;
   Call_lib_open (Some "libfoo.so") true false;
   Call_lib_close 4096].

(** ** Further readings of a run *)

Definition is_dlclose (e : event) : bool :=
  match e with
  | Edlclose _ _ => true
  | _ => false
  end.

(** What [InitBox64] does after the failed step [e]: the loader's error
    text is fetched and printed with the message of that step, or, for
    the initializer, the fixed message is printed; then [abort()]. *)
Definition diagnostic_of (e : event) (err : cstr) : list event :=
  match e with
  | Edlopen _ _ _ => ev_fatal fmt_load_error err
  | Edlsym _ (Some name) _ => ev_fatal (fmt_symbol_error name) err
  | _ => [Efprintf_stderr fmt_init_error []; Eabort]
  end.

(** Two runs that a caller and the outside world cannot tell apart: the
    same calls with the same answers, the same result, and the same
    environment and world left behind. *)
Definition same_run {W A} (r1 r2 : process W * list event * outcome A) : Prop :=
  events r1 = events r2 /\
  result r1 = result r2 /\
  environ (final r1) = environ (final r2) /\
  world (final r1) = world (final r2).

(** A bridge whose initializer throws. *)
Definition bridge_throwing_init : bridge_script :=
  Script 28672 28928 Throws 29184 29440 (Returns 36864) (Returns 37120).

(** A bridge whose initializer reports an error. *)
Definition bridge_failing_init : bridge_script :=
  Script 28672 28928 (Returns 1) 29184 29440 (Returns 36864) (Returns 37120).

(** ** The Windows configuration

    With [CARLA_OS_WIN] defined the four functions go to the Win32
    loader instead, and [lib_error] formats the last error code into a
    function-local [static] buffer.  The Win32 functions are C functions
    and do not throw. *)

Module Win.

(** Values of the Windows SDK headers. *)
Definition FORMAT_MESSAGE_ALLOCATE_BUFFER : Z := 256.
Definition FORMAT_MESSAGE_IGNORE_INSERTS : Z := 512.
Definition FORMAT_MESSAGE_FROM_SYSTEM : Z := 4096.
Definition LANG_NEUTRAL : Z := 0.
Definition SUBLANG_DEFAULT : Z := 1.
Definition MAKELANGID (primary sub : Z) : Z := Z.lor (Z.shiftl sub 10) primary.

(** The Win32 side of the world.  [GetLastError] reads the DWORD of the
    calling thread.  [FormatMessage], asked to allocate, either stores
    the address of a new buffer holding the message (as [%s] will read
    it) or fails and stores nothing. *)
Class Win32 (V : Type) : Type := {
  LoadLibraryA : V -> cstr -> V * ptr;
  FreeLibrary : V -> ptr -> V * Z;
  GetProcAddress : V -> ptr -> cstr -> V * ptr;
  GetLastError : V -> Z;
  FormatMessage : V -> Z -> Z -> Z -> V * option (ptr * string);
  LocalFree : V -> ptr -> V
}.

(** The process: the [static char libError[2048+1]] of [lib_error], read
    as the C string it holds, and the world. *)
Record process (V : Type) : Type := Process {
  libError : string;
  world : V
}.
Arguments Process {V} _ _.
Arguments libError {V} _.
Arguments world {V} _.

(** What [lib_error] returns: null, or the address of [libError]. *)
Inductive error_ptr : Type :=
| Null
| LibError.

(** Reading the text behind a returned pointer, in a given state. *)
Definition deref {V} (s : process V) (p : error_ptr) : option string :=
  match p with
  | Null => None
  | LibError => Some (libError s)
  end.

Inductive event : Type :=
| ELoadLibraryA (file : cstr) (ret : ptr)
| EFreeLibrary (handle : ptr) (ret : Z)
| EGetProcAddress (handle : ptr) (name : cstr) (ret : ptr)
| EGetLastError (ret : Z)
| EFormatMessage (flags code lang : Z) (ret : option (ptr * string))
| ELocalFree (mem : ptr)
| Ereport_assert (cond : string)
| Ereport_exception (what : string).

Inductive outcome (A : Type) : Type :=
| Returned (a : A)
| Thrown              (* a C++ exception is in flight *)
| Terminated          (* an exception reached a [noexcept] boundary *)
| Undefined.          (* an indeterminate pointer was used *)
Arguments Returned {A} a.
Arguments Thrown {A}.
Arguments Terminated {A}.
Arguments Undefined {A}.

Definition M (V A : Type) : Type := process V -> process V * list event * outcome A.

Definition final {V A} (r : process V * list event * outcome A) : process V := r.1.1.
Definition events {V A} (r : process V * list event * outcome A) : list event := r.1.2.
Definition result {V A} (r : process V * list event * outcome A) : outcome A := r.2.

Definition ret {V A} (a : A) : M V A := fun s => (s, [], Returned a).

Definition bind {V A B} (m : M V A) (k : A -> M V B) : M V B := fun s =>
  match m s with
  | (s1, e1, Returned a) =>
      match k a s1 with
      | (s2, e2, o) => (s2, e1 ++ e2, o)
      end
  | (s1, e1, Thrown) => (s1, e1, Thrown)
  | (s1, e1, Terminated) => (s1, e1, Terminated)
  | (s1, e1, Undefined) => (s1, e1, Undefined)
  end.

Definition emit {V} (e : event) : M V unit := fun s => (s, [e], Returned tt).

Definition try_catch {V A} (body handler : M V A) : M V A := fun s =>
  match body s with
  | (s1, e1, Thrown) =>
      match handler s1 with
      | (s2, e2, o) => (s2, e1 ++ e2, o)
      end
  | r => r
  end.

Definition noexcept {V A} (m : M V A) : M V A := fun s =>
  match m s with
  | (s1, e1, Thrown) => (s1, e1, Terminated)
  | r => r
  end.

(** Modelled from the spec: [CARLA_SAFE_ASSERT_RETURN], of CarlaUtils.hpp
    which is not among the sources, as in the POSIX configuration. *)
Definition CARLA_SAFE_ASSERT_RETURN {V A} (cond : bool) (text : string) (value : A)
    (rest : M V A) : M V A :=
  if cond then rest else bind (emit (Ereport_assert text)) (fun _ => ret value).

(** Modelled from the spec: [CARLA_SAFE_EXCEPTION_RETURN], of
    CarlaUtils.hpp, as in the POSIX configuration. *)
Definition CARLA_SAFE_EXCEPTION_RETURN {V A} (what : string) (value : A) : M V A :=
  bind (emit (Ereport_exception what)) (fun _ => ret value).

(** Modelled from the spec: [CARLA_SAFE_EXCEPTION], of CarlaUtils.hpp:
    the catch-all clause that files its report and lets the function go
    on after the [try] block. *)
Definition CARLA_SAFE_EXCEPTION {V} (what : string) : M V unit :=
  emit (Ereport_exception what).

(** Modelled from the spec: [carla_zeroChars], of CarlaUtils.hpp, here
    applied to the whole of [libError]: every char becomes NUL, so the
    buffer holds the empty string. *)
Definition carla_zeroChars {V} : M V unit := fun s =>
  (Process EmptyString (world s), [], Returned tt).

(** The first [n] chars of a text. *)
Fixpoint string_take (n : nat) (t : string) : string :=
  match n, t with
  | S n', String c t' => String c (string_take n' t')
  | _, _ => EmptyString
  end.

(** [%li] applied to a DWORD: [long] has 32 bits on Windows and the
    value is read as signed. *)
Definition long_of_DWORD (code : Z) : Z :=
  let c := code mod 4294967296 in
  if c <? 2147483648 then c else c - 4294967296.

Definition decimal (z : Z) : string := NilZero.string_of_int (Z.to_int z).

(** What ["%s: error code %li: %s"] expands to. *)
Definition error_message (filename : string) (code : Z) (text : string) : string :=
  filename +:+ ": error code " +:+ decimal (long_of_DWORD code) +:+ ": " +:+ text.

(** [std::snprintf(libError, size, "%s: error code %li: %s", filename,
    winErrorCode, (const char* )winErrorString)]: at most [size - 1]
    chars are stored, then a NUL.  A [%s] argument that is null or
    indeterminate is undefined. *)
Definition snprintf_libError {V} (size : nat) (filename : cstr) (code : Z)
    (winErrorString : option (ptr * string)) : M V unit := fun s =>
  match filename, winErrorString with
  | Some f, Some (_, text) =>
      (Process (string_take (size - 1) (error_message f code text)) (world s),
       [], Returned tt)
  | _, _ => (s, [], Undefined)
  end.

Section Calls.
Context {V : Type} {P : Win32 V}.

Definition do_LoadLibraryA (file : cstr) : M V ptr := fun s =>
  match LoadLibraryA (world s) file with
  | (v, h) => (Process (libError s) v, [ELoadLibraryA file h], Returned h)
  end.

Definition do_FreeLibrary (handle : ptr) : M V Z := fun s =>
  match FreeLibrary (world s) handle with
  | (v, r) => (Process (libError s) v, [EFreeLibrary handle r], Returned r)
  end.

Definition do_GetProcAddress (handle : ptr) (name : cstr) : M V ptr := fun s =>
  match GetProcAddress (world s) handle name with
  | (v, p) => (Process (libError s) v, [EGetProcAddress handle name p], Returned p)
  end.

Definition do_GetLastError : M V Z := fun s =>
  (s, [EGetLastError (GetLastError (world s))], Returned (GetLastError (world s))).

Definition do_FormatMessage (flags code lang : Z) : M V (option (ptr * string)) := fun s =>
  match FormatMessage (world s) flags code lang with
  | (v, r) => (Process (libError s) v, [EFormatMessage flags code lang r], Returned r)
  end.

(** [LocalFree(winErrorString)]; with the pointer indeterminate the call
    is undefined. *)
Definition do_LocalFree (winErrorString : option (ptr * string)) : M V unit := fun s =>
  match winErrorString with
  | Some (mem, _) => (Process (libError s) (LocalFree (world s) mem), [ELocalFree mem], Returned tt)
  | None => (s, [], Undefined)
  end.

Definition lib_open (filename : cstr) (global use_libbox64 : bool) : M V lib_t :=
  noexcept
    (CARLA_SAFE_ASSERT_RETURN (nonempty filename)
       "filename != nullptr && filename[0] != '\0'" nullptr
       (try_catch
          (do_LoadLibraryA filename)
          (CARLA_SAFE_EXCEPTION_RETURN "lib_open" nullptr))).

Definition lib_close (lib : lib_t) : M V bool :=
  noexcept
    (CARLA_SAFE_ASSERT_RETURN (negb (lib =? nullptr)) "lib != nullptr" false
       (try_catch
          (bind (do_FreeLibrary lib) (fun r => ret (negb (r =? 0))))
          (CARLA_SAFE_EXCEPTION_RETURN "lib_close" false))).

Definition lib_symbol (lib : lib_t) (symbol : cstr) (use_libbox64 : bool) : M V ptr :=
  noexcept
    (CARLA_SAFE_ASSERT_RETURN (negb (lib =? nullptr)) "lib != nullptr" nullptr
       (CARLA_SAFE_ASSERT_RETURN (nonempty symbol)
          "symbol != nullptr && symbol[0] != '\0'" nullptr
          (try_catch
             (do_GetProcAddress lib symbol)
             (CARLA_SAFE_EXCEPTION_RETURN "lib_symbol" nullptr)))).

Definition lib_error (filename : cstr) (use_libbox64 : bool) : M V error_ptr :=
  noexcept
    (CARLA_SAFE_ASSERT_RETURN (nonempty filename)
       "filename != nullptr && filename[0] != '\0'" Null
       (bind carla_zeroChars (fun _ =>
        bind (try_catch
                (bind do_GetLastError (fun winErrorCode =>
                 let winErrorFlags :=
                   Z.lor (Z.lor FORMAT_MESSAGE_ALLOCATE_BUFFER FORMAT_MESSAGE_FROM_SYSTEM)
                     FORMAT_MESSAGE_IGNORE_INSERTS in
                 bind (do_FormatMessage winErrorFlags winErrorCode
                         (MAKELANGID LANG_NEUTRAL SUBLANG_DEFAULT))
                   (fun winErrorString =>
                 bind (snprintf_libError 2048 filename winErrorCode winErrorString)
                   (fun _ =>
                 do_LocalFree winErrorString))))
                (CARLA_SAFE_EXCEPTION "lib_error")) (fun _ =>
        fun s =>
          (s, [], Returned match libError s with
                           | EmptyString => Null
                           | String _ _ => LibError
                           end))))).
End Calls.

(** A scripted Win32 world: the last error code is the state; every
    message is allocated at 65536. *)
Definition scripted (message : Z -> option string) : Win32 Z := {|
  LoadLibraryA := fun v file => if named file "foo.dll" then (0, 4096) else (126, 0);
  FreeLibrary := fun v h => if h =? 4096 then (v, 1) else (6, 0);
  GetProcAddress := fun v h name =>
    if (h =? 4096) && named name "doWork" then (v, 20480) else (127, 0);
  GetLastError := fun v => v;
  FormatMessage := fun v _ code _ =>
    match message code with
    | Some text => (v, Some (65536, text))
    | None => (v, None)
    end;
  LocalFree := fun v _ => v
|}.

Definition messages (code : Z) : option string :=
  if code =? 0 then Some "The operation completed successfully."
  else if code =? 126 then Some "The specified module could not be found."
  else if code =? 127 then Some "The specified procedure could not be found."
  else None.

End Win.

(** ** The header in a world whose loader may throw

    The [try] blocks of the header stand round calls of the loader's C
    functions too.  To tell what each handler does, and which call has
    none, the five functions are embedded once more over a wider world,
    in which every call that leaves the translation unit, those of
    <dlfcn.h> included, either answers or throws.  A call that throws
    has no answer to record and leaves no event.  Everything else (the
    state, the events, the monad, the macros, [setenv]) is as above. *)

Module Throwing.

Class Platform (W : Type) : Type := {
  dlopen : gmap string string -> W -> cstr -> Z -> W * answer ptr;
  dlsym : gmap string string -> W -> ptr -> cstr -> W * answer ptr;
  dlclose : gmap string string -> W -> ptr -> W * answer Z;
  dlerror : gmap string string -> W -> W * answer cstr;
  call_init : gmap string string -> W -> ptr -> W * answer Z;
  call_load : gmap string string -> W -> ptr -> cstr -> W * answer ptr;
  call_run : gmap string string -> W -> ptr -> ptr -> cstr -> W * answer ptr
}.

Section Functions.
Context {W : Type} {P : Platform W}.

Definition do_dlopen (file : cstr) (flags : Z) : M W ptr := fun s =>
  match dlopen (environ s) (world s) file flags with
  | (w, Returns h) => (with_world s w, [Edlopen file flags h], Normal h)
  | (w, Throws) => (with_world s w, [], Exception)
  end.

Definition do_dlsym (handle : ptr) (name : cstr) : M W ptr := fun s =>
  match dlsym (environ s) (world s) handle name with
  | (w, Returns p) => (with_world s w, [Edlsym handle name p], Normal p)
  | (w, Throws) => (with_world s w, [], Exception)
  end.

Definition do_dlclose (handle : ptr) : M W Z := fun s =>
  match dlclose (environ s) (world s) handle with
  | (w, Returns r) => (with_world s w, [Edlclose handle r], Normal r)
  | (w, Throws) => (with_world s w, [], Exception)
  end.

Definition do_dlerror : M W cstr := fun s =>
  match dlerror (environ s) (world s) with
  | (w, Returns r) => (with_world s w, [Edlerror r], Normal r)
  | (w, Throws) => (with_world s w, [], Exception)
  end.

Definition of_answer {A} (s : process W) (e : event) (a : answer A)
    : process W * list event * outcome A :=
  match a with
  | Returns v => (s, [e], Normal v)
  | Throws => (s, [e], Exception)
  end.

Definition invoke_init (f : ptr) : M W Z := fun s =>
  if f =? 0 then (s, [], NullCall)
  else match call_init (environ s) (world s) f with
       | (w, a) => of_answer (with_world s w) (Ecall_init f a) a
       end.

Definition invoke_load (f : ptr) (path : cstr) : M W ptr := fun s =>
  if f =? 0 then (s, [], NullCall)
  else match call_load (environ s) (world s) f path with
       | (w, a) => of_answer (with_world s w) (Ecall_load f path a) a
       end.

Definition invoke_run (f : ptr) (handle : ptr) (name : cstr) : M W ptr := fun s =>
  if f =? 0 then (s, [], NullCall)
  else match call_run (environ s) (world s) f handle name with
       | (w, a) => of_answer (with_world s w) (Ecall_run f handle name a) a
       end.

(** [if (!p) { fprintf(stderr, fmt, dlerror()); abort(); }] *)
Definition abort_if_null (p : ptr) (fmt : string) : M W unit :=
  if p =? 0 then
    (e <- do_dlerror ;;
     fprintf_stderr fmt [e] ;;;
     abort)
  else ret tt.

Definition InitBox64 : M W unit :=
  setenv "BOX64_LD_LIBRARY_PATH" box64_ld_library_path 1 ;;;
  box64_lib_handle <- do_dlopen (Some box64_lib_path) (Z.lor RTLD_GLOBAL RTLD_NOW) ;;
  abort_if_null box64_lib_handle fmt_load_error ;;;
  box64_init_func <- do_dlsym box64_lib_handle (Some "Initialize") ;;
  abort_if_null box64_init_func (fmt_symbol_error "Initialize") ;;;
  status <- invoke_init box64_init_func ;;
  (if negb (status =? 0) then
     (fprintf_stderr fmt_init_error [] ;;;
      abort)
   else ret tt) ;;;
  load <- do_dlsym box64_lib_handle (Some "LoadX64Library") ;;
  set_LoadLibraryWithEmulator load ;;;
  load' <- get_LoadLibraryWithEmulator ;;
  abort_if_null load' (fmt_symbol_error "LoadX64Library") ;;;
  run <- do_dlsym box64_lib_handle (Some "RunX64Function") ;;
  set_RunFuncWithEmulator run ;;;
  run' <- get_RunFuncWithEmulator ;;
  abort_if_null run' (fmt_symbol_error "RunX64Function") ;;;
  printf fmt_initialized.

Definition lib_open (filename : cstr) (global use_libbox64 : bool) : M W lib_t :=
  noexcept
    (CARLA_SAFE_ASSERT_RETURN (nonempty filename)
       "filename != nullptr && filename[0] != '\0'" nullptr
       (try_catch
          (if use_libbox64 then
             (InitBox64 ;;;
              f <- get_LoadLibraryWithEmulator ;;
              invoke_load f filename)
           else
             do_dlopen filename
               (Z.lor RTLD_NOW (if global then RTLD_GLOBAL else RTLD_LOCAL)))
          (CARLA_SAFE_EXCEPTION_RETURN "lib_open" nullptr))).

Definition lib_close (lib : lib_t) : M W bool :=
  noexcept
    (CARLA_SAFE_ASSERT_RETURN (negb (lib =? nullptr)) "lib != nullptr" false
       (try_catch
          (r <- do_dlclose lib ;;
           ret (r =? 0))
          (CARLA_SAFE_EXCEPTION_RETURN "lib_close" false))).

Definition lib_symbol (lib : lib_t) (symbol : cstr) (use_libbox64 : bool) : M W ptr :=
  noexcept
    (CARLA_SAFE_ASSERT_RETURN (negb (lib =? nullptr)) "lib != nullptr" nullptr
       (CARLA_SAFE_ASSERT_RETURN (nonempty symbol)
          "symbol != nullptr && symbol[0] != '\0'" nullptr
          (try_catch
             (if use_libbox64 then
                (f <- get_RunFuncWithEmulator ;;
                 invoke_run f lib symbol)
              else
                do_dlsym lib symbol)
             (CARLA_SAFE_EXCEPTION_RETURN "lib_symbol" nullptr)))).

Definition lib_error (filename : cstr) (use_libbox64 : bool) : M W cstr :=
  noexcept
    (CARLA_SAFE_ASSERT_RETURN (nonempty filename)
       "filename != nullptr && filename[0] != '\0'" None
       do_dlerror).
End Functions.
End Throwing.

(** A world of the first kind seen as one of the second: every call of
    the loader answers. *)
Definition never_throwing {W} (P : Platform W) : Throwing.Platform W := {|
  Throwing.dlopen := fun env w file flags =>
    match dlopen env w file flags with (w', h) => (w', Returns h) end;
  Throwing.dlsym := fun env w handle name =>
    match dlsym env w handle name with (w', p) => (w', Returns p) end;
  Throwing.dlclose := fun env w handle =>
    match dlclose env w handle with (w', r) => (w', Returns r) end;
  Throwing.dlerror := fun env w =>
    match dlerror env w with (w', r) => (w', Returns r) end;
  Throwing.call_init := call_init;
  Throwing.call_load := call_load;
  Throwing.call_run := call_run
|}.


(** ** Tactics *)

(** Takes the answers of the external calls one at a time, outermost
    first, and splits the null checks. *)
Ltac crank :=
  repeat (unfold with_world;
          cbn [environ world RunFuncWithEmulator LoadLibraryWithEmulator
               of_answer negb orb app];
    match goal with
    | |- context [dlopen ?e ?w ?f ?g] => destruct (dlopen e w f g) as [? ?] eqn:?
    | |- context [dlsym ?e ?w ?h ?n] => destruct (dlsym e w h n) as [? ?] eqn:?
    | |- context [dlclose ?e ?w ?h] => destruct (dlclose e w h) as [? ?] eqn:?
    | |- context [dlerror ?e ?w] => destruct (dlerror e w) as [? ?] eqn:?
    | |- context [call_init ?e ?w ?f] => destruct (call_init e w f) as [? [?|]] eqn:?
    | |- context [call_load ?e ?w ?f ?p] => destruct (call_load e w f p) as [? [?|]] eqn:?
    | |- context [call_run ?e ?w ?f ?h ?n] =>
        destruct (call_run e w f h n) as [? [?|]] eqn:?
    | |- context [?x =? 0] => is_var x; destruct (Z.eqb_spec x 0); [subst x|]
    end);
  unfold with_world;
  cbn [environ world RunFuncWithEmulator LoadLibraryWithEmulator
       of_answer negb orb app].

Ltac unfold_ops :=
  unfold lib_open, lib_close, lib_symbol, lib_error, noexcept,
    CARLA_SAFE_ASSERT_RETURN, CARLA_SAFE_EXCEPTION_RETURN, try_catch, bind,
    do_dlopen, do_dlsym, do_dlclose, do_dlerror, invoke_load, invoke_run,
    get_LoadLibraryWithEmulator, get_RunFuncWithEmulator, emit, ret, nullptr.

(** Turns the known [x <> 0] into [(x =? 0) = false]. *)
Ltac known_nonzero :=
  repeat match goal with
         | H : ?x <> 0 |- _ => apply Z.eqb_neq in H
         end.

(** * Proofs *)

Section Runs.
Context {W : Type} {P : Platform W}.

(** Every run of [InitBox64] is one of the seven listed. *)
Lemma InitBox64_runs (s : process W) : InitBox64_run s (InitBox64 s).
Proof.
  unfold InitBox64, abort_if_null, bind, setenv, do_dlopen, do_dlsym, do_dlerror,
    invoke_init, set_LoadLibraryWithEmulator, set_RunFuncWithEmulator,
    get_LoadLibraryWithEmulator, get_RunFuncWithEmulator, fprintf_stderr, printf,
    emit, abort, ret.
  change (negb (1 =? 0) || _) with true. cbv iota.
  fold (bridge_env s). fold bridge_flags.
  crank.
  all: econstructor; eassumption.
Qed.

(** What a run of [InitBox64] leaves in the environment. *)
Lemma InitBox64_environ (s : process W) :
  environ (final (InitBox64 s)) = bridge_env s.
Proof.
  destruct (InitBox64_runs s); reflexivity.
Qed.

(** A run that comes back has stored two non-null entry points. *)
Lemma InitBox64_normal (s s1 : process W) (e1 : list event) (u : unit) :
  InitBox64 s = (s1, e1, Normal u) ->
  LoadLibraryWithEmulator s1 <> 0 /\ RunFuncWithEmulator s1 <> 0.
Proof.
  intros E. pose proof (InitBox64_runs s) as R. rewrite E in R.
  inversion R; subst. cbn. split; assumption.
Qed.

(** A run that ends in an exception has written neither field. *)
Lemma InitBox64_exception (s s1 : process W) (e1 : list event) :
  InitBox64 s = (s1, e1, Exception) ->
  LoadLibraryWithEmulator s1 = LoadLibraryWithEmulator s /\
  RunFuncWithEmulator s1 = RunFuncWithEmulator s.
Proof.
  intros E. pose proof (InitBox64_runs s) as R. rewrite E in R.
  inversion R; subst. cbn. split; reflexivity.
Qed.

(** The emulated open, step by step: the bootstrap sequence, then the
    call through the pointer it has just stored. *)
Lemma lib_open_emulated (filename : cstr) (global : bool) (s : process W) :
  nonempty filename = true ->
  lib_open filename global true s =
    match InitBox64 s with
    | (s1, e1, Normal _) =>
        match call_load (environ s1) (world s1) (LoadLibraryWithEmulator s1) filename with
        | (w, Returns h) =>
            (with_world s1 w,
             e1 ++ [Ecall_load (LoadLibraryWithEmulator s1) filename (Returns h)],
             Normal h)
        | (w, Throws) =>
            (with_world s1 w,
             e1 ++ [Ecall_load (LoadLibraryWithEmulator s1) filename Throws;
                    Esafe_exception "lib_open"],
             Normal nullptr)
        end
    | (s1, e1, Exception) => (s1, e1 ++ [Esafe_exception "lib_open"], Normal nullptr)
    | (s1, e1, Abort) => (s1, e1, Abort)
    | (s1, e1, Terminate) => (s1, e1, Terminate)
    | (s1, e1, NullCall) => (s1, e1, NullCall)
    end.
Proof.
  intros Hf. unfold_ops. rewrite Hf.
  destruct (InitBox64 s) as [[s1 e1] [u| | | |]] eqn:E; try reflexivity.
  destruct (InitBox64_normal _ _ _ _ E) as [Hl _].
  cbn [app]. destruct (Z.eqb_spec (LoadLibraryWithEmulator s1) 0) as [?|_]; [contradiction|].
  destruct (call_load _ _ _ _) as [w [h|]]; cbn;
    rewrite <- ?app_assoc, ?app_nil_r; reflexivity.
Qed.

(** The four operations that do not bootstrap leave the two fields and
    the environment as they were. *)
Lemma lib_open_native_frame filename global s :
  same_bridge_state s (final (lib_open filename global false s)).
Proof.
  unfold_ops. destruct (nonempty filename); [|repeat split].
  crank; repeat split.
Qed.

Lemma lib_close_frame lib s : same_bridge_state s (final (lib_close lib s)).
Proof.
  unfold_ops. destruct (lib =? 0); [repeat split|].
  crank; repeat split.
Qed.

Lemma lib_symbol_frame lib symbol use_libbox64 s :
  same_bridge_state s (final (lib_symbol lib symbol use_libbox64 s)).
Proof.
  unfold_ops. destruct (lib =? 0); [repeat split|].
  destruct (nonempty symbol); [|repeat split].
  destruct use_libbox64; cbn [negb].
  - destruct (RunFuncWithEmulator s =? 0); [repeat split|].
    crank; repeat split.
  - crank; repeat split.
Qed.

Lemma lib_error_frame filename use_libbox64 s :
  same_bridge_state s (final (lib_error filename use_libbox64 s)).
Proof.
  unfold_ops. destruct (nonempty filename); [|repeat split].
  crank; repeat split.
Qed.
End Runs.

(** ** The bootstrap sequence *)

Section Bootstrap.
Context {W : Type} {P : Platform W}.

(** C1.  Fail-fast bootstrap: in every run of [InitBox64] in which the
    bridge library fails to load, one of the entry points "Initialize",
    "LoadX64Library" or "RunX64Function" is absent, or the initializer
    returns a non-zero status, the run ends in [abort()], and the last
    thing it does before that is to print a diagnostic on stderr.  The
    run does not return to its caller. *)
Theorem InitBox64_failure_is_fatal (s : process W) :
  existsb bootstrap_failure (events (InitBox64 s)) = true ->
  result (InitBox64 s) = Abort /\
  returned (result (InitBox64 s)) = false /\
  exists before fmt args,
    events (InitBox64 s) = before ++ [Efprintf_stderr fmt args; Eabort].
Proof.
  intros Hfail. destruct (InitBox64_runs s); known_nonzero;
    unfold events, result, ev_open, ev_fatal, ev_sym in *; cbn [fst snd app] in *.
  - repeat split. now exists [Esetenv "BOX64_LD_LIBRARY_PATH" box64_ld_library_path 1;
                               Edlopen (Some box64_lib_path) bridge_flags 0; Edlerror e],
      fmt_load_error, [e].
  - repeat split.
    now exists [Esetenv "BOX64_LD_LIBRARY_PATH" box64_ld_library_path 1;
                Edlopen (Some box64_lib_path) bridge_flags h;
                Edlsym h (Some "Initialize") 0; Edlerror e],
      (fmt_symbol_error "Initialize"), [e].
  - exfalso. cbn in Hfail.
    repeat match goal with H : (_ =? 0) = false |- _ => rewrite H in Hfail end.
    discriminate.
  - repeat split.
    now exists [Esetenv "BOX64_LD_LIBRARY_PATH" box64_ld_library_path 1;
                Edlopen (Some box64_lib_path) bridge_flags h;
                Edlsym h (Some "Initialize") init; Ecall_init init (Returns status)],
      fmt_init_error, [].
  - repeat split.
    now exists [Esetenv "BOX64_LD_LIBRARY_PATH" box64_ld_library_path 1;
                Edlopen (Some box64_lib_path) bridge_flags h;
                Edlsym h (Some "Initialize") init; Ecall_init init (Returns 0);
                Edlsym h (Some "LoadX64Library") 0; Edlerror e],
      (fmt_symbol_error "LoadX64Library"), [e].
  - repeat split.
    now exists [Esetenv "BOX64_LD_LIBRARY_PATH" box64_ld_library_path 1;
                Edlopen (Some box64_lib_path) bridge_flags h;
                Edlsym h (Some "Initialize") init; Ecall_init init (Returns 0);
                Edlsym h (Some "LoadX64Library") load;
                Edlsym h (Some "RunX64Function") 0; Edlerror e],
      (fmt_symbol_error "RunX64Function"), [e].
  - exfalso. cbn in Hfail.
    repeat match goal with H : (_ =? 0) = false |- _ => rewrite H in Hfail end.
    discriminate.
Qed.
End Bootstrap.

(** ** The BridgeState invariant *)

Section Invariant.
Context {W : Type} {P : Platform W}.

Lemma same_bridge_state_consistent (s s' : process W) :
  same_bridge_state s s' -> bridge_consistent s -> bridge_consistent s'.
Proof.
  unfold same_bridge_state, bridge_consistent, bridge_unset, bridge_set.
  intros (-> & -> & _). trivial.
Qed.

(** An open that comes back keeps the invariant: the emulated one has
    either stored both entry points or stopped, on an exception of the
    initializer, before writing any. *)
Lemma lib_open_consistent filename global use_libbox64 (s : process W) :
  bridge_consistent s ->
  returned (result (lib_open filename global use_libbox64 s)) = true ->
  bridge_consistent (final (lib_open filename global use_libbox64 s)).
Proof.
  intros Hs. destruct use_libbox64.
  - destruct (nonempty filename) eqn:Hf.
    + rewrite (lib_open_emulated _ _ _ Hf).
      destruct (InitBox64 s) as [[s1 e1] [u| | | |]] eqn:E; try discriminate.
      * intros _. right. destruct (InitBox64_normal _ _ _ _ E).
        destruct (call_load _ _ _ _) as [w [h|]]; split; assumption.
      * intros _. destruct (InitBox64_exception _ _ _ E) as [Hl Hr].
        unfold bridge_consistent, bridge_unset, bridge_set, final in *.
        cbn [fst]. rewrite Hl, Hr. exact Hs.
    + intros _. unfold_ops. rewrite Hf. exact Hs.
  - intros _. eapply same_bridge_state_consistent; [apply lib_open_native_frame|exact Hs].
Qed.

Lemma perform_consistent (c : call) (s s' : process W) :
  bridge_consistent s -> perform c s = Some s' -> bridge_consistent s'.
Proof.
  intros Hs. destruct c; unfold perform, survive.
  - destruct (returned _) eqn:Hr; [|discriminate].
    intros [= <-]. now apply lib_open_consistent.
  - destruct (returned _); [|discriminate]. intros [= <-].
    eapply same_bridge_state_consistent; [apply lib_close_frame|exact Hs].
  - destruct (returned _); [|discriminate]. intros [= <-].
    eapply same_bridge_state_consistent; [apply lib_symbol_frame|exact Hs].
  - destruct (returned _); [|discriminate]. intros [= <-].
    eapply same_bridge_state_consistent; [apply lib_error_frame|exact Hs].
Qed.

Lemma perform_all_consistent (cs : list call) (s s' : process W) :
  bridge_consistent s -> perform_all cs s = Some s' -> bridge_consistent s'.
Proof.
  revert s. induction cs as [|c cs IH]; intros s Hs; cbn [perform_all].
  - now intros [= <-].
  - destruct (perform c s) as [s1|] eqn:E; [|discriminate].
    apply IH. eapply perform_consistent; eassumption.
Qed.

(** C2.  BridgeState invariant: whenever [InitBox64] returns normally
    both [LoadLibraryWithEmulator] and [RunFuncWithEmulator] are
    non-null; and from a state in which the two fields are both null or
    both non-null, after any sequence of calls of [lib_open],
    [lib_close], [lib_symbol] and [lib_error] that all came back to the
    caller, the two fields are again both null or both non-null: a
    state with exactly one of them set is never observed. *)
Theorem BridgeState_invariant (s : process W) (cs : list call) (s' : process W) :
  (result (InitBox64 s) = Normal tt -> bridge_set (final (InitBox64 s))) /\
  (bridge_consistent s -> perform_all cs s = Some s' -> bridge_consistent s').
Proof.
  split.
  - destruct (InitBox64 s) as [[s1 e1] o] eqn:E. unfold result, final; cbn.
    intros ->. exact (InitBox64_normal _ _ _ _ E).
  - apply perform_all_consistent.
Qed.
End Invariant.

(** ** The facade *)

Section Facade_properties.
Context {W : Type} {P : Platform W}.

(** The events of the facade's emulated open start with those of the
    bootstrap sequence. *)
Lemma lib_open_emulated_events filename global (s : process W) :
  nonempty filename = true ->
  exists rest,
    events (lib_open filename global true s) = events (InitBox64 s) ++ rest.
Proof.
  intros Hf. rewrite (lib_open_emulated _ _ _ Hf).
  destruct (InitBox64 s) as [[s1 e1] [u| | | |]]; unfold events; cbn [fst snd].
  - destruct (call_load _ _ _ _) as [w [h|]]; eexists; reflexivity.
  - eexists; reflexivity.
  - exists []. now rewrite app_nil_r.
  - exists []. now rewrite app_nil_r.
  - exists []. now rewrite app_nil_r.
Qed.

(** C3 (amended).  [lib_open] with [use_libbox64 = true] and a
    non-null, non-empty filename runs [InitBox64] on every call,
    whatever BridgeState holds (the code has no single-run guard): its
    events start with the [setenv] and the [dlopen] of the bridge, and
    with all the events of [InitBox64] from that state.  When
    [InitBox64] returns, the open then calls the entry point stored in
    [LoadLibraryWithEmulator], which is non-null, with the given
    filename, and returns its answer (null if that call throws). *)
Theorem lib_open_emulated_bootstraps_every_time filename global (s : process W) :
  nonempty filename = true ->
  (exists h rest, events (lib_open filename global true s) = ev_open h ++ rest) /\
  (exists rest, events (lib_open filename global true s) = events (InitBox64 s) ++ rest) /\
  (result (InitBox64 s) = Normal tt ->
   exists w a,
     call_load (environ (final (InitBox64 s))) (world (final (InitBox64 s)))
       (LoadLibraryWithEmulator (final (InitBox64 s))) filename = (w, a) /\
     LoadLibraryWithEmulator (final (InitBox64 s)) <> nullptr /\
     events (lib_open filename global true s) =
       events (InitBox64 s)
       ++ Ecall_load (LoadLibraryWithEmulator (final (InitBox64 s))) filename a
          :: match a with
             | Returns _ => []
             | Throws => [Esafe_exception "lib_open"]
             end /\
     result (lib_open filename global true s) =
       Normal match a with
              | Returns h => h
              | Throws => nullptr
              end).
Proof.
  intros Hf. split; [|split].
  - destruct (lib_open_emulated_events filename global s Hf) as [rest ->].
    destruct (InitBox64_runs s); unfold events; cbn [fst snd];
      rewrite <- app_assoc; eexists _, _; reflexivity.
  - now apply lib_open_emulated_events.
  - rewrite (lib_open_emulated _ _ _ Hf).
    destruct (InitBox64 s) as [[s1 e1] o] eqn:E. unfold result, final, events.
    cbn [fst snd]. intros ->.
    destruct (InitBox64_normal _ _ _ _ E) as [Hl _].
    destruct (call_load _ _ _ _) as [w [h|]]; eexists _, _;
      repeat split; try reflexivity; exact Hl.
Qed.

(** C4.  Input validation precedes delegation: [lib_open] with a null
    or empty filename returns null, [lib_symbol] with a null handle, or
    with a null or empty symbol name, returns null, and [lib_close]
    with a null handle returns false; in each case the process state is
    untouched and the only event of the call is the report of the
    failed check, so no call reaches the loader or the bridge. *)
Theorem validation_precedes_delegation
    (s : process W) (filename symbol any : cstr) (lib : lib_t) (global use_libbox64 : bool) :
  nonempty filename = false ->
  nonempty symbol = false ->
  (final (lib_open filename global use_libbox64 s) = s /\
   result (lib_open filename global use_libbox64 s) = Normal nullptr /\
   existsb is_loader_call (events (lib_open filename global use_libbox64 s)) = false) /\
  (final (lib_symbol nullptr any use_libbox64 s) = s /\
   result (lib_symbol nullptr any use_libbox64 s) = Normal nullptr /\
   existsb is_loader_call (events (lib_symbol nullptr any use_libbox64 s)) = false) /\
  (final (lib_symbol lib symbol use_libbox64 s) = s /\
   result (lib_symbol lib symbol use_libbox64 s) = Normal nullptr /\
   existsb is_loader_call (events (lib_symbol lib symbol use_libbox64 s)) = false) /\
  (final (lib_close nullptr s) = s /\
   result (lib_close nullptr s) = Normal false /\
   existsb is_loader_call (events (lib_close nullptr s)) = false).
Proof.
  intros Hf Hs. unfold_ops. rewrite Hf, Hs. cbn [Z.eqb negb].
  destruct (lib =? 0); cbn; repeat split.
Qed.


(** A run of [InitBox64] never ends at a [noexcept] boundary or in a
    call through a null pointer, and an exception in it is one thrown
    by the initializer. *)
Lemma InitBox64_result (s : process W) :
  result (InitBox64 s) <> Terminate /\
  result (InitBox64 s) <> NullCall /\
  (existsb fault (events (InitBox64 s)) = true -> result (InitBox64 s) = Exception).
Proof.
  destruct (InitBox64_runs s); unfold result, events; cbn [fst snd];
    repeat split; try discriminate; cbn; intros; discriminate.
Qed.


End Facade_properties.

(** ** Exceptions, with a loader that may throw *)

Ltac unfold_throwing :=
  unfold Throwing.lib_open, Throwing.lib_close, Throwing.lib_symbol, Throwing.lib_error,
    Throwing.InitBox64, Throwing.abort_if_null,
    Throwing.do_dlopen, Throwing.do_dlsym, Throwing.do_dlclose, Throwing.do_dlerror,
    Throwing.invoke_init, Throwing.invoke_load, Throwing.invoke_run, Throwing.of_answer,
    noexcept, CARLA_SAFE_ASSERT_RETURN, CARLA_SAFE_EXCEPTION_RETURN, try_catch, bind,
    setenv, set_LoadLibraryWithEmulator, set_RunFuncWithEmulator,
    get_LoadLibraryWithEmulator, get_RunFuncWithEmulator, fprintf_stderr, printf,
    emit, abort, ret, nullptr.


Section Same_header.
Context {W : Type} {P : Platform W}.

(** Over a loader that never throws the second embedding is the first. *)
Lemma never_throwing_InitBox64 (s : process W) :
  Throwing.InitBox64 (P := never_throwing P) s = InitBox64 s.
Proof.
  unfold InitBox64, abort_if_null, do_dlopen, do_dlsym, do_dlerror, invoke_init, of_answer.
  unfold_throwing. cbn [never_throwing Throwing.dlopen Throwing.dlsym Throwing.dlerror
                        Throwing.call_init].
  change (negb (1 =? 0) || _) with true. cbv iota.
  crank; reflexivity.
Qed.

Lemma never_throwing_facade (s : process W) (filename symbol : cstr) (lib : lib_t)
    (global use_libbox64 : bool) :
  Throwing.lib_open (P := never_throwing P) filename global use_libbox64 s =
    lib_open filename global use_libbox64 s /\
  Throwing.lib_close (P := never_throwing P) lib s = lib_close lib s /\
  Throwing.lib_symbol (P := never_throwing P) lib symbol use_libbox64 s =
    lib_symbol lib symbol use_libbox64 s /\
  Throwing.lib_error (P := never_throwing P) filename use_libbox64 s =
    lib_error filename use_libbox64 s.
Proof.
  split; [|split; [|split]].
  - unfold Throwing.lib_open, lib_open. destruct use_libbox64.
    + unfold noexcept, CARLA_SAFE_ASSERT_RETURN, try_catch, bind.
      destruct (nonempty filename); [|reflexivity].
      rewrite never_throwing_InitBox64.
      destruct (InitBox64 s) as [[s1 e1] [u| | | |]]; reflexivity.
    + unfold_ops. unfold_throwing. cbn [never_throwing Throwing.dlopen].
      destruct (nonempty filename); [|reflexivity]. crank. reflexivity.
  - unfold_ops. unfold_throwing. cbn [never_throwing Throwing.dlclose].
    destruct (lib =? 0); [reflexivity|]. crank; reflexivity.
  - unfold_ops. unfold invoke_run, of_answer. unfold_throwing.
    cbn [never_throwing Throwing.dlsym Throwing.call_run].
    destruct (lib =? 0); [reflexivity|]. destruct (nonempty symbol); [|reflexivity].
    destruct use_libbox64; cbn [negb app].
    + destruct (RunFuncWithEmulator s =? 0); [reflexivity|]. crank; reflexivity.
    + crank. reflexivity.
  - unfold_ops. unfold_throwing. cbn [never_throwing Throwing.dlerror].
    destruct (nonempty filename); [|reflexivity]. crank. reflexivity.
Qed.
End Same_header.

Section Handlers.
Context {W : Type} {P : Throwing.Platform W}.



End Handlers.

(** ** Order and effects of the bootstrap sequence *)

Section Bootstrap_order.
Context {W : Type} {P : Platform W}.

(** C6.  Every run of [InitBox64] starts with
    [setenv("BOX64_LD_LIBRARY_PATH", <fixed value>, 1)], which leaves
    the variable at the fixed value whatever it held, and continues
    with the [dlopen] of the bridge, which therefore sees the variable
    set and is asked for [RTLD_GLOBAL] together with [RTLD_NOW]; there
    is no other [setenv] or [dlopen] in the run.  From there the
    sequence goes on step by step: when the bridge has loaded, the next
    call resolves "Initialize" on its handle; when that is present, the
    next call invokes it; when it has returned 0, the next call resolves
    "LoadX64Library" and its answer is what [LoadLibraryWithEmulator]
    holds at the end; when that is present, the next call resolves
    "RunX64Function" and its answer is what [RunFuncWithEmulator] holds
    at the end.  So the initializer is not called before "Initialize"
    has been resolved, neither entry point is resolved before the
    initializer has returned 0, and the two fields are written only in
    runs in which it has. *)
Theorem InitBox64_order (s : process W) :
  (exists h rest,
     events (InitBox64 s) =
       Esetenv "BOX64_LD_LIBRARY_PATH" box64_ld_library_path 1
       :: Edlopen (Some box64_lib_path) (Z.lor RTLD_GLOBAL RTLD_NOW) h :: rest /\
     snd (dlopen (<["BOX64_LD_LIBRARY_PATH" := box64_ld_library_path]> (environ s))
            (world s) (Some box64_lib_path) (Z.lor RTLD_GLOBAL RTLD_NOW)) = h /\
     existsb is_setenv_or_dlopen rest = false /\
     (h <> nullptr ->
      exists init rest1,
        rest = Edlsym h (Some "Initialize") init :: rest1 /\
        (init <> nullptr ->
         exists status rest2,
           rest1 = Ecall_init init status :: rest2 /\
           (status = Returns 0 ->
            exists load rest3,
              rest2 = Edlsym h (Some "LoadX64Library") load :: rest3 /\
              LoadLibraryWithEmulator (final (InitBox64 s)) = load /\
              (load <> nullptr ->
               exists run rest4,
                 rest3 = Edlsym h (Some "RunX64Function") run :: rest4 /\
                 RunFuncWithEmulator (final (InitBox64 s)) = run))))) /\
  environ (final (InitBox64 s)) =
    <["BOX64_LD_LIBRARY_PATH" := box64_ld_library_path]> (environ s) /\
  environ (final (InitBox64 s)) !! "BOX64_LD_LIBRARY_PATH" = Some box64_ld_library_path /\
  Z.testbit (Z.lor RTLD_GLOBAL RTLD_NOW) 8 = true /\
  Z.testbit (Z.lor RTLD_GLOBAL RTLD_NOW) 1 = true /\
  not_before is_init_resolution is_init_call (events (InitBox64 s)) = true /\
  not_before is_init_success is_entry_resolution (events (InitBox64 s)) = true /\
  (existsb is_init_success (events (InitBox64 s)) = true \/
   (LoadLibraryWithEmulator (final (InitBox64 s)) = LoadLibraryWithEmulator s /\
    RunFuncWithEmulator (final (InitBox64 s)) = RunFuncWithEmulator s)).
Proof.
  rewrite InitBox64_environ. unfold bridge_env.
  rewrite lookup_insert_eq.
  split; [|repeat split].
  - destruct (InitBox64_runs s);
      match goal with
      | H : dlopen _ _ _ _ = _ |- _ => unfold bridge_env, bridge_flags in H; rewrite H
      end;
      unfold events, final, nullptr; cbn [fst snd];
      eexists _, _; (split; [reflexivity|split; [reflexivity|split; [reflexivity|]]]);
      repeat first [ progress intros | congruence | reflexivity | eexists | split ].
  - destruct (InitBox64_runs s); known_nonzero; unfold events; cbn;
      repeat match goal with H : (_ =? 0) = false |- _ => rewrite H end; reflexivity.
  - destruct (InitBox64_runs s); known_nonzero; unfold events; cbn;
      repeat match goal with H : (_ =? 0) = false |- _ => rewrite H end; reflexivity.
  - destruct (InitBox64_runs s); unfold events, final; cbn;
      first [ right; split; reflexivity | left; reflexivity ].
Qed.
End Bootstrap_order.

(** ** Running the bootstrap sequence twice *)

Section Idempotence.
Context {W : Type} {P : Platform W}.

Lemma stable_bridge_agree (first second : list event) (a b : event) :
  stable_bridge first second = true ->
  In a first -> In b second -> answers_agree a b = true.
Proof.
  unfold stable_bridge. intros Hst Ha Hb.
  rewrite forallb_forall in Hst. specialize (Hst b Hb).
  rewrite forallb_forall in Hst. exact (Hst a Ha).
Qed.

Lemma agree_dlopen file flags r1 r2 :
  answers_agree (Edlopen file flags r1) (Edlopen file flags r2) = true -> r1 = r2.
Proof.
  cbn [answers_agree]. rewrite bool_decide_eq_true_2, Z.eqb_refl by reflexivity.
  cbn. apply Z.eqb_eq.
Qed.

Lemma agree_dlsym h name r1 r2 :
  answers_agree (Edlsym h name r1) (Edlsym h name r2) = true -> r1 = r2.
Proof.
  cbn [answers_agree]. rewrite bool_decide_eq_true_2, Z.eqb_refl by reflexivity.
  cbn. apply Z.eqb_eq.
Qed.

(** C8.  Bootstrapper idempotence: when a run of [InitBox64] has
    returned and a second run follows it in which every [dlopen] and
    [dlsym] call is answered as in the first, then after the second run
    [LoadLibraryWithEmulator] and [RunFuncWithEmulator] hold the same
    pointer values as after the first. *)
Theorem InitBox64_idempotent (s : process W) :
  result (InitBox64 s) = Normal tt ->
  stable_bridge (events (InitBox64 s)) (events (InitBox64 (final (InitBox64 s)))) = true ->
  LoadLibraryWithEmulator (final (InitBox64 (final (InitBox64 s)))) =
    LoadLibraryWithEmulator (final (InitBox64 s)) /\
  RunFuncWithEmulator (final (InitBox64 (final (InitBox64 s)))) =
    RunFuncWithEmulator (final (InitBox64 s)).
Proof.
  destruct (InitBox64_runs s) as [| | | | | |w1 h w2 init w3 w4 load w5 run];
    unfold result; cbn [snd]; try discriminate.
  intros _. unfold final at 2 3 5 6. unfold events at 1. cbn [fst snd].
  set (s1 := Process run load (bridge_env s) w5).
  set (first := ev_open h ++ _).
  intros Hst.
  assert (Hopen : forall r, In (Edlopen (Some box64_lib_path) bridge_flags r)
                              (events (InitBox64 s1)) -> r = h).
  { intros r Hin. symmetry. apply (agree_dlopen (Some box64_lib_path) bridge_flags).
    apply (stable_bridge_agree first _ _ _ Hst); [|exact Hin].
    subst first. cbn. auto 12. }
  assert (Hsym : forall name r r', In (Edlsym h (Some name) r') (events (InitBox64 s1)) ->
                                   In (Edlsym h (Some name) r) first -> r' = r).
  { intros name r r' Hin Hin1. symmetry. apply (agree_dlsym h (Some name)).
    now apply (stable_bridge_agree first _ _ _ Hst). }
  clear Hst.
  destruct (InitBox64_runs s1) as [ww1 ww2 e|ww1 h' ww2 ww3 e|ww1 h' ww2 init' ww3
      |ww1 h' ww2 init' ww3 status|ww1 h' ww2 init' ww3 ww4 ww5 e
      |ww1 h' ww2 init' ww3 ww4 load' ww5 ww6 e|ww1 h' ww2 init' ww3 ww4 load' ww5 run'];
    unfold final, events in *; cbn [fst snd] in *;
    try (split; reflexivity).
  - exfalso. assert (h' = h) as -> by (apply Hopen; cbn; auto 12).
    assert (0 = load) by (apply (Hsym "LoadX64Library"); subst first; cbn; auto 12).
    congruence.
  - exfalso. assert (h' = h) as -> by (apply Hopen; cbn; auto 12).
    assert (0 = run) by (apply (Hsym "RunX64Function"); subst first; cbn; auto 12).
    congruence.
  - assert (h' = h) as -> by (apply Hopen; cbn; auto 12).
    assert (load' = load) by (apply (Hsym "LoadX64Library"); subst first; cbn; auto 12).
    assert (run' = run) by (apply (Hsym "RunX64Function"); subst first; cbn; auto 12).
    subst. split; reflexivity.
Qed.
End Idempotence.

(** ** The error reporter, the emulated symbol lookup, and the frame *)

Section Paths.
Context {W : Type} {P : Platform W}.

(** C7.  The error reporter does not look at the emulation flag:
    [lib_error filename true] and [lib_error filename false] are the
    same run in every state; with a non-empty filename the value
    returned is the answer of [dlerror], the native loader's last
    error, and with a null or empty filename it is null. *)
Theorem lib_error_ignores_emulation_flag (s : process W) (filename : cstr) :
  lib_error filename true s = lib_error filename false s /\
  forall use_libbox64,
    result (lib_error filename use_libbox64 s) =
      Normal (if nonempty filename then snd (dlerror (environ s) (world s)) else None).
Proof.
  split; [reflexivity|]. intros use_libbox64. unfold_ops.
  destruct (nonempty filename); [|reflexivity].
  destruct (dlerror _ _); reflexivity.
Qed.

(** C9.  [lib_symbol] on the emulated path, with a non-null handle and
    a non-empty name, takes no bootstrap step and does not check the
    stored pointer: it calls [RunFuncWithEmulator] as it stands, with
    the handle and the name.  With the pointer still null this is a
    call through a null function pointer; with a non-null pointer the
    entry point runs and its answer is returned (null if it throws). *)
Theorem lib_symbol_emulated_needs_bootstrap (s : process W) (lib : lib_t) (symbol : cstr) :
  lib <> nullptr ->
  nonempty symbol = true ->
  (RunFuncWithEmulator s = nullptr ->
   lib_symbol lib symbol true s = (s, [], NullCall)) /\
  (RunFuncWithEmulator s <> nullptr ->
   exists w a,
     call_run (environ s) (world s) (RunFuncWithEmulator s) lib symbol = (w, a) /\
     lib_symbol lib symbol true s =
       (with_world s w,
        Ecall_run (RunFuncWithEmulator s) lib symbol a
        :: match a with
           | Returns _ => []
           | Throws => [Esafe_exception "lib_symbol"]
           end,
        Normal match a with
               | Returns p => p
               | Throws => nullptr
               end)) /\
  existsb is_bootstrap_step (events (lib_symbol lib symbol true s)) = false.
Proof.
  intros Hlib Hsym. apply Z.eqb_neq in Hlib. unfold_ops.
  unfold nullptr in Hlib. rewrite Hlib, Hsym. cbn [negb app].
  destruct (Z.eqb_spec (RunFuncWithEmulator s) 0) as [Hr|Hr].
  - repeat split; try reflexivity. intros; contradiction.
  - split; [intros; contradiction|].
    destruct (call_run _ _ _ _ _) as [w [p|]]; cbn; split; try reflexivity;
      intros _; eexists _, _; split; reflexivity.
Qed.

(** C10.  Frame: [lib_open] with [use_libbox64 = false], [lib_close],
    [lib_symbol] on either path and [lib_error] leave
    [RunFuncWithEmulator], [LoadLibraryWithEmulator] and the
    environment (so also BOX64_LD_LIBRARY_PATH) as they found them;
    [lib_open] with [use_libbox64 = true] and a filename that passes
    the check is the operation that writes: after it the variable holds
    the fixed search path. *)
Theorem only_emulated_open_writes (s : process W) (filename symbol : cstr)
    (lib : lib_t) (global use_libbox64 : bool) :
  same_bridge_state s (final (lib_open filename global false s)) /\
  same_bridge_state s (final (lib_close lib s)) /\
  same_bridge_state s (final (lib_symbol lib symbol use_libbox64 s)) /\
  same_bridge_state s (final (lib_error filename use_libbox64 s)) /\
  (nonempty filename = true ->
   environ (final (lib_open filename global true s)) !! "BOX64_LD_LIBRARY_PATH" =
     Some box64_ld_library_path).
Proof.
  split; [apply lib_open_native_frame|].
  split; [apply lib_close_frame|].
  split; [apply lib_symbol_frame|].
  split; [apply lib_error_frame|].
  intros Hf. rewrite (lib_open_emulated _ _ _ Hf).
  pose proof (InitBox64_environ s) as He.
  destruct (InitBox64 s) as [[s1 e1] [u| | | |]]; unfold final in *; cbn [fst] in *;
    try destruct (call_load _ _ _ _) as [w [h|]]; cbn [fst environ with_world];
    rewrite He; apply lookup_insert_eq.
Qed.
End Paths.

(** * Concrete runs *)

Lemma InitBox64_failure_is_fatal_witness :
  existsb bootstrap_failure
    (events (InitBox64 (P := scripted bridge_without_run) startup)) = true /\
  result (InitBox64 (P := scripted bridge_without_run) startup) = Abort.
Proof.
  split; [vm_compute; reflexivity|].
  apply (InitBox64_failure_is_fatal (P := scripted bridge_without_run) startup).
  vm_compute; reflexivity.
Defined.

Lemma BridgeState_invariant_witness :
  exists s',
    perform_all (P := scripted good_bridge) session startup = Some s' /\
    bridge_set (final (InitBox64 (P := scripted good_bridge) startup)) /\
    bridge_consistent s'.
Proof.
  eexists. split; [vm_compute; reflexivity|].
  split.
  - apply (BridgeState_invariant (P := scripted good_bridge) startup session startup).
    vm_compute; reflexivity.
  - eapply (BridgeState_invariant (P := scripted good_bridge) startup session).
    + left. split; reflexivity.
    + vm_compute; reflexivity.
Defined.

(** C3, as the spec has it, fails: with BridgeState populated by an
    earlier emulated open, the next emulated open takes the bootstrap
    steps again. *)
Lemma lib_open_has_no_single_run_guard :
  ~ (bridge_set populated ->
     existsb is_bootstrap_step
       (events (lib_open (P := scripted good_bridge) (Some "plugin.so") false true
                  populated)) = false).
Proof.
  intros H.
  assert (Hset : bridge_set populated) by (split; vm_compute; discriminate).
  specialize (H Hset). vm_compute in H. discriminate.
Qed.

Lemma lib_open_emulated_bootstraps_every_time_witness :
  nonempty (Some "plugin.so") = true /\
  exists rest,
    events (lib_open (P := scripted good_bridge) (Some "plugin.so") false true populated) =
    events (InitBox64 (P := scripted good_bridge) populated) ++ rest.
Proof.
  split; [reflexivity|].
  apply (lib_open_emulated_bootstraps_every_time (P := scripted good_bridge)
           (Some "plugin.so") false populated).
  reflexivity.
Defined.

Lemma validation_precedes_delegation_witness :
  final (lib_open (P := scripted good_bridge) None true true populated) = populated /\
  result (lib_symbol (P := scripted good_bridge) 4096 (Some "") false populated) =
    Normal nullptr.
Proof.
  destruct (validation_precedes_delegation (P := scripted good_bridge) populated
              None (Some "") (Some "doWork") 4096 true true eq_refl eq_refl)
    as ((Ho & _) & _ & _ & _).
  destruct (validation_precedes_delegation (P := scripted good_bridge) populated
              None (Some "") (Some "doWork") 4096 true false eq_refl eq_refl)
    as (_ & _ & (_ & Hs & _) & _).
  split; assumption.
Defined.

Lemma InitBox64_order_witness :
  LoadLibraryWithEmulator (final (InitBox64 (P := scripted good_bridge) startup)) = 29184 /\
  RunFuncWithEmulator (final (InitBox64 (P := scripted good_bridge) startup)) = 29440.
Proof.
  destruct (InitBox64_order (P := scripted good_bridge) startup)
    as ((h & rest & Hev & Hh & _ & Hstep) & _).
  vm_compute in Hh. subst h.
  vm_compute in Hev. injection Hev as Hev. subst rest.
  destruct (Hstep ltac:(discriminate)) as (init & rest1 & Hr & Hstep1).
  injection Hr as <- <-.
  destruct (Hstep1 ltac:(discriminate)) as (status & rest2 & Hr & Hstep2).
  injection Hr as <- <-.
  destruct (Hstep2 eq_refl) as (load & rest3 & Hr & Hload & Hstep3).
  injection Hr as <- <-.
  destruct (Hstep3 ltac:(discriminate)) as (run & rest4 & Hr & Hrun).
  injection Hr as <- <-.
  split; assumption.
Defined.



Lemma InitBox64_idempotent_witness :
  LoadLibraryWithEmulator
    (final (InitBox64 (P := scripted good_bridge)
              (final (InitBox64 (P := scripted good_bridge) startup)))) =
    LoadLibraryWithEmulator (final (InitBox64 (P := scripted good_bridge) startup)) /\
  RunFuncWithEmulator
    (final (InitBox64 (P := scripted good_bridge)
              (final (InitBox64 (P := scripted good_bridge) startup)))) =
    RunFuncWithEmulator (final (InitBox64 (P := scripted good_bridge) startup)).
Proof.
  apply (InitBox64_idempotent (P := scripted good_bridge) startup);
    vm_compute; reflexivity.
Defined.

Lemma lib_symbol_emulated_needs_bootstrap_witness :
  lib_symbol (P := scripted good_bridge) 4096 (Some "doWork") true startup =
    (startup, [], NullCall).
Proof.
  apply (lib_symbol_emulated_needs_bootstrap (P := scripted good_bridge) startup
           4096 (Some "doWork")); [discriminate|reflexivity|reflexivity].
Defined.

Lemma only_emulated_open_writes_witness :
  environ startup !! "BOX64_LD_LIBRARY_PATH" = None /\
  environ (final (lib_open (P := scripted good_bridge) (Some "plugin.so") false true
                    startup)) !! "BOX64_LD_LIBRARY_PATH" = Some box64_ld_library_path.
Proof.
  split; [reflexivity|].
  apply (only_emulated_open_writes (P := scripted good_bridge) startup
           (Some "plugin.so") (Some "doWork") 4096 false true).
  reflexivity.
Defined.

(** * Further properties of the header *)

Section Bootstrap_outcomes.
Context {W : Type} {P : Platform W}.

(** X1.  The way a run of [InitBox64] ends is decided by the answers it
    got: it ends in [abort()] exactly when a step of the sequence failed,
    it ends with an exception exactly when the initializer threw, and it
    returns exactly when neither happened. *)
Theorem InitBox64_outcome (s : process W) :
  (result (InitBox64 s) = Abort <->
   existsb bootstrap_failure (events (InitBox64 s)) = true) /\
  (result (InitBox64 s) = Exception <->
   existsb fault (events (InitBox64 s)) = true) /\
  (result (InitBox64 s) = Normal tt <->
   existsb bootstrap_failure (events (InitBox64 s)) = false /\
   existsb fault (events (InitBox64 s)) = false).
Proof.
  destruct (InitBox64_runs s); known_nonzero; unfold events, result; cbn [fst snd];
    cbn;
    repeat match goal with H : (_ =? 0) = false |- _ => rewrite H end;
    cbn; repeat split; intros; try discriminate; try reflexivity;
    repeat match goal with H : _ /\ _ |- _ => destruct H end; discriminate.
Qed.

(** X2.  An aborting run of [InitBox64] stops at its first failed step:
    nothing before that step had failed, and after it come only the
    diagnostic of that step and [abort()].  For a failed [dlopen] or
    [dlsym] the text printed is the answer of a [dlerror] call made right
    after the failed call. *)
Theorem InitBox64_stops_at_first_failure (s : process W) :
  result (InitBox64 s) = Abort ->
  exists before e err,
    events (InitBox64 s) = before ++ e :: diagnostic_of e err /\
    bootstrap_failure e = true /\
    existsb bootstrap_failure before = false.
Proof.
  destruct (InitBox64_runs s); known_nonzero; unfold events, result; cbn [fst snd];
    try discriminate; intros _.
  - exists [Esetenv "BOX64_LD_LIBRARY_PATH" box64_ld_library_path 1],
      (Edlopen (Some box64_lib_path) bridge_flags 0), e.
    repeat split.
  - exists (ev_open h), (ev_sym h "Initialize" 0), e.
    cbn. rewrite H0. repeat split.
  - exists (ev_open h ++ [ev_sym h "Initialize" init]),
      (Ecall_init init (Returns status)), None.
    cbn. rewrite H0, H2, H4. repeat split.
  - exists (ev_open h ++ [ev_sym h "Initialize" init; Ecall_init init (Returns 0)]),
      (ev_sym h "LoadX64Library" 0), e.
    cbn. rewrite H0, H2. repeat split.
  - exists (ev_open h ++ [ev_sym h "Initialize" init; Ecall_init init (Returns 0);
                          ev_sym h "LoadX64Library" load]),
      (ev_sym h "RunX64Function" 0), e.
    cbn. rewrite H0, H2, H5. repeat split.
Qed.
End Bootstrap_outcomes.

Section Sessions.
Context {W : Type} {P : Platform W}.

(** X3.  A run of [InitBox64] that returns has stored exactly what
    [dlsym] answered for "LoadX64Library" and "RunX64Function" on the
    handle that [dlopen] gave for the bridge; it has printed nothing on
    stderr, has not called [dlerror], and its last act is the message on
    stdout. *)
Theorem InitBox64_stores_what_dlsym_answered (s : process W) :
  result (InitBox64 s) = Normal tt ->
  exists h,
    h <> nullptr /\
    In (Edlopen (Some box64_lib_path) (Z.lor RTLD_GLOBAL RTLD_NOW) h)
       (events (InitBox64 s)) /\
    In (Edlsym h (Some "LoadX64Library") (LoadLibraryWithEmulator (final (InitBox64 s))))
       (events (InitBox64 s)) /\
    In (Edlsym h (Some "RunX64Function") (RunFuncWithEmulator (final (InitBox64 s))))
       (events (InitBox64 s)) /\
    last (events (InitBox64 s)) = Some (Eprintf fmt_initialized) /\
    forall e, In e (events (InitBox64 s)) ->
              match e with
              | Edlerror _ | Efprintf_stderr _ _ | Eabort => False
              | _ => True
              end.
Proof.
  destruct (InitBox64_runs s); unfold events, result, final; cbn [fst snd];
    try discriminate; intros _.
  exists h. split; [assumption|]. cbn. repeat split; auto 12.
  intros e0 Hin. repeat destruct Hin as [<-|Hin]; try exact I. destruct Hin.
Qed.

(** What an emulated open leaves in the environment. *)
Lemma lib_open_emulated_environ filename global (s : process W) :
  nonempty filename = true ->
  environ (final (lib_open filename global true s)) = bridge_env s.
Proof.
  intros Hf. rewrite (lib_open_emulated _ _ _ Hf).
  pose proof (InitBox64_environ s) as He.
  destruct (InitBox64 s) as [[s1 e1] [u| | | |]]; unfold final in *; cbn [fst] in *;
    try destruct (call_load _ _ _ _) as [w [h|]]; exact He.
Qed.

(** Any call leaves the environment as it was or as the bootstrap
    sequence writes it. *)
Lemma perform_environ (c : call) (s s' : process W) :
  perform c s = Some s' ->
  environ s' = environ s \/ environ s' = bridge_env s.
Proof.
  destruct c as [filename global [|]|lib|lib symbol use|filename use];
    unfold perform, survive; destruct (returned _); try discriminate; intros [= <-].
  - destruct (nonempty filename) eqn:Hf.
    + right. now apply lib_open_emulated_environ.
    + left. unfold_ops. rewrite Hf. reflexivity.
  - left. apply lib_open_native_frame.
  - left. apply lib_close_frame.
  - left. apply lib_symbol_frame.
  - left. apply lib_error_frame.
Qed.

(** X4.  Over any sequence of calls of the interface the environment
    changes in one variable at most: every variable other than
    BOX64_LD_LIBRARY_PATH keeps its value, and BOX64_LD_LIBRARY_PATH
    either keeps its value or holds the fixed search path; once it holds
    the fixed search path it holds it after every later call. *)
Theorem environment_over_a_session (cs : list call) (s s' : process W) :
  perform_all cs s = Some s' ->
  (forall name, name <> "BOX64_LD_LIBRARY_PATH" ->
                environ s' !! name = environ s !! name) /\
  (environ s' !! "BOX64_LD_LIBRARY_PATH" = environ s !! "BOX64_LD_LIBRARY_PATH" \/
   environ s' !! "BOX64_LD_LIBRARY_PATH" = Some box64_ld_library_path) /\
  (environ s !! "BOX64_LD_LIBRARY_PATH" = Some box64_ld_library_path ->
   environ s' !! "BOX64_LD_LIBRARY_PATH" = Some box64_ld_library_path).
Proof.
  revert s. induction cs as [|c cs IH]; intros s; cbn [perform_all].
  - intros [= <-]. auto.
  - destruct (perform c s) as [s1|] eqn:E; [|discriminate].
    intros Hall. destruct (IH _ Hall) as (Hother & Hvar & Hkeep).
    assert (H1 : forall name, name <> "BOX64_LD_LIBRARY_PATH" ->
                              environ s1 !! name = environ s !! name).
    { intros name Hne. destruct (perform_environ _ _ _ E) as [->| ->]; [reflexivity|].
      unfold bridge_env. now rewrite lookup_insert_ne by congruence. }
    assert (H2 : environ s1 !! "BOX64_LD_LIBRARY_PATH" = environ s !! "BOX64_LD_LIBRARY_PATH" \/
                 environ s1 !! "BOX64_LD_LIBRARY_PATH" = Some box64_ld_library_path).
    { destruct (perform_environ _ _ _ E) as [->| ->]; [now left|right].
      unfold bridge_env. apply lookup_insert_eq. }
    split; [|split].
    + intros name Hne. rewrite (Hother name Hne). now apply H1.
    + destruct Hvar as [Hv|Hv]; [|now right]. rewrite Hv. exact H2.
    + intros Hs. apply Hkeep. destruct H2 as [->|H2]; assumption.
Qed.

(** A call that comes back keeps a populated BridgeState populated. *)
Lemma perform_keeps_bridge_set (c : call) (s s' : process W) :
  bridge_set s -> perform c s = Some s' -> bridge_set s'.
Proof.
  intros Hs. destruct c as [filename global [|]|lib|lib symbol use|filename use];
    unfold perform, survive.
  - destruct (nonempty filename) eqn:Hf.
    + rewrite (lib_open_emulated _ _ _ Hf).
      destruct (InitBox64 s) as [[s1 e1] [u| | | |]] eqn:E;
        unfold result, final; cbn [fst snd returned]; try discriminate.
      * destruct (InitBox64_normal _ _ _ _ E).
        destruct (call_load _ _ _ _) as [w [h|]]; intros [= <-]; split; assumption.
      * destruct (InitBox64_exception _ _ _ E) as [Hl Hr].
        intros [= <-]. unfold bridge_set. rewrite Hl, Hr. exact Hs.
    + unfold_ops. rewrite Hf. cbn. now intros [= <-].
  - destruct (returned _); [|discriminate]. intros [= <-].
    destruct (lib_open_native_frame filename global s) as (Hr & Hl & _).
    unfold bridge_set. now rewrite Hr, Hl.
  - destruct (returned _); [|discriminate]. intros [= <-].
    destruct (lib_close_frame lib s) as (Hr & Hl & _).
    unfold bridge_set. now rewrite Hr, Hl.
  - destruct (returned _); [|discriminate]. intros [= <-].
    destruct (lib_symbol_frame lib symbol use s) as (Hr & Hl & _).
    unfold bridge_set. now rewrite Hr, Hl.
  - destruct (returned _); [|discriminate]. intros [= <-].
    destruct (lib_error_frame filename use s) as (Hr & Hl & _).
    unfold bridge_set. now rewrite Hr, Hl.
Qed.

Lemma perform_all_keeps_bridge_set (cs : list call) (s s' : process W) :
  bridge_set s -> perform_all cs s = Some s' -> bridge_set s'.
Proof.
  revert s. induction cs as [|c cs IH]; intros s Hs; cbn [perform_all].
  - now intros [= <-].
  - destruct (perform c s) as [s1|] eqn:E; [|discriminate].
    apply IH. eapply perform_keeps_bridge_set; eassumption.
Qed.

(** An emulated open that hands out a non-null handle has populated
    BridgeState. *)
Lemma lib_open_emulated_handle filename global (s : process W) (h : lib_t) :
  result (lib_open filename global true s) = Normal h ->
  h <> nullptr ->
  bridge_set (final (lib_open filename global true s)).
Proof.
  destruct (nonempty filename) eqn:Hf.
  - rewrite (lib_open_emulated _ _ _ Hf).
    destruct (InitBox64 s) as [[s1 e1] [u| | | |]] eqn:E;
      unfold result, final; cbn [fst snd]; try discriminate.
    + destruct (InitBox64_normal _ _ _ _ E).
      destruct (call_load _ _ _ _) as [w [h'|]]; intros _ _; split; assumption.
    + intros [= <-] Hh. now contradiction Hh.
  - unfold_ops. rewrite Hf. cbn. intros [= <-] Hh. now contradiction Hh.
Qed.

(** X5.  BridgeState, once populated, stays populated: no call of the
    interface that comes back resets either pointer to null.  So after an
    emulated [lib_open] that handed out a non-null handle, and after any
    further calls that came back, an emulated [lib_symbol] is never a
    call through a null function pointer. *)
Theorem populated_for_the_rest_of_the_session
    (s s' : process W) (filename : cstr) (global : bool) (h : lib_t)
    (cs : list call) (lib : lib_t) (symbol : cstr) :
  result (lib_open filename global true s) = Normal h ->
  h <> nullptr ->
  perform_all cs (final (lib_open filename global true s)) = Some s' ->
  bridge_set s' /\
  result (lib_symbol lib symbol true s') <> NullCall.
Proof.
  intros Hr Hh Hall.
  assert (Hset : bridge_set s').
  { eapply perform_all_keeps_bridge_set; [|exact Hall].
    eapply lib_open_emulated_handle; eassumption. }
  split; [exact Hset|].
  destruct Hset as [_ Hrun]. apply Z.eqb_neq in Hrun. unfold nullptr in Hrun.
  unfold_ops. destruct (lib =? 0); cbn [negb]; [discriminate|].
  destruct (nonempty symbol); [|discriminate].
  cbn [app]. rewrite Hrun.
  destruct (call_run _ _ _ _ _) as [w [p|]]; discriminate.
Qed.

(** X6.  A null result of an emulated [lib_open] does not mean that the
    bridge is ready for a retry-free use: when the initializer throws,
    the open returns null, BridgeState is as it was, yet the environment
    variable has been written; from a process that had not bootstrapped
    before, an emulated [lib_symbol] with valid arguments is then a call
    through a null function pointer. *)
Theorem emulated_open_swallows_initializer_exception
    (s : process W) (filename : cstr) (global : bool) (lib : lib_t) (symbol : cstr) :
  nonempty filename = true ->
  existsb fault (events (InitBox64 s)) = true ->
  result (lib_open filename global true s) = Normal nullptr /\
  LoadLibraryWithEmulator (final (lib_open filename global true s)) =
    LoadLibraryWithEmulator s /\
  RunFuncWithEmulator (final (lib_open filename global true s)) =
    RunFuncWithEmulator s /\
  environ (final (lib_open filename global true s)) !! "BOX64_LD_LIBRARY_PATH" =
    Some box64_ld_library_path /\
  (bridge_unset s -> lib <> nullptr -> nonempty symbol = true ->
   result (lib_symbol lib symbol true (final (lib_open filename global true s))) =
     NullCall).
Proof.
  intros Hf Hfault.
  assert (Hx : result (InitBox64 s) = Exception) by now apply InitBox64_result.
  pose proof (lib_open_emulated_environ filename global s Hf) as Henv.
  rewrite (lib_open_emulated _ _ _ Hf) in *.
  destruct (InitBox64 s) as [[s1 e1] o] eqn:E. unfold result in Hx. cbn [snd] in Hx.
  subst o. destruct (InitBox64_exception _ _ _ E) as [Hl Hr].
  unfold result, final in *; cbn [fst snd] in *.
  split; [reflexivity|]. split; [exact Hl|]. split; [exact Hr|].
  split; [rewrite Henv; apply lookup_insert_eq|].
  intros [_ Hrun] Hlib Hsym. apply Z.eqb_neq in Hlib. unfold nullptr in *.
  unfold_ops. rewrite Hlib, Hsym. cbn [negb app]. rewrite Hr, Hrun. reflexivity.
Qed.
End Sessions.

Section Outcomes.
Context {W : Type} {P : Platform W}.



(** X9.  Nothing but [lib_close] ever calls [dlclose]: neither the
    bootstrap sequence nor [lib_open], [lib_symbol] or [lib_error]
    release a handle, so the handle of the bridge, opened anew by every
    emulated [lib_open], is never closed.  [lib_close] itself closes at
    most the handle it was given, once. *)
Theorem only_lib_close_closes (s : process W) (filename symbol : cstr)
    (lib : lib_t) (global use_libbox64 : bool) :
  existsb is_dlclose (events (InitBox64 s)) = false /\
  existsb is_dlclose (events (lib_open filename global use_libbox64 s)) = false /\
  existsb is_dlclose (events (lib_symbol lib symbol use_libbox64 s)) = false /\
  existsb is_dlclose (events (lib_error filename use_libbox64 s)) = false /\
  (events (lib_close lib s) = [Esafe_assert "lib != nullptr"] \/
   exists r, events (lib_close lib s) = [Edlclose lib r]).
Proof.
  assert (Hinit : existsb is_dlclose (events (InitBox64 s)) = false).
  { destruct (InitBox64_runs s); reflexivity. }
  split; [exact Hinit|]. split; [|split; [|split]].
  - destruct (nonempty filename) eqn:Hf.
    + destruct use_libbox64.
      * rewrite (lib_open_emulated _ _ _ Hf).
        destruct (InitBox64 s) as [[s1 e1] [u| | | |]]; unfold events in *;
          cbn [fst snd] in *; try exact Hinit;
          try destruct (call_load _ _ _ _) as [w [h|]]; cbn [fst snd];
          rewrite existsb_app, Hinit; reflexivity.
      * unfold_ops. rewrite Hf. crank. reflexivity.
    + unfold_ops. rewrite Hf. reflexivity.
  - unfold_ops. destruct (lib =? 0); [reflexivity|].
    destruct (nonempty symbol); [|reflexivity].
    destruct use_libbox64; cbn [negb app].
    + destruct (RunFuncWithEmulator s =? 0); [reflexivity|]. crank; reflexivity.
    + crank. reflexivity.
  - unfold_ops. destruct (nonempty filename); [crank|]; reflexivity.
  - unfold_ops. destruct (lib =? 0); cbn [negb].
    + now left.
    + right. crank; eexists; reflexivity.
Qed.

(** X10.  What is in BridgeState steers nothing but the emulated
    [lib_symbol]: started from two processes that differ only in the two
    pointers, [lib_open] on either path, [lib_close], the native
    [lib_symbol] and [lib_error] make the same calls, get the same
    answers and give the same result.  In particular an emulated
    [lib_open] does not behave differently once the bridge is loaded. *)
Theorem pointers_steer_only_emulated_symbol
    (run load run' load' : ptr) (env : gmap string string) (w : W)
    (filename symbol : cstr) (lib : lib_t) (global use_libbox64 : bool) :
  same_run (lib_open filename global use_libbox64 (Process run load env w))
           (lib_open filename global use_libbox64 (Process run' load' env w)) /\
  same_run (lib_close lib (Process run load env w))
           (lib_close lib (Process run' load' env w)) /\
  same_run (lib_symbol lib symbol false (Process run load env w))
           (lib_symbol lib symbol false (Process run' load' env w)) /\
  same_run (lib_error filename use_libbox64 (Process run load env w))
           (lib_error filename use_libbox64 (Process run' load' env w)).
Proof.
  unfold same_run. split; [|split; [|split]].
  - unfold lib_open, InitBox64, abort_if_null, invoke_init, invoke_load, setenv,
      set_LoadLibraryWithEmulator, set_RunFuncWithEmulator, fprintf_stderr, printf, abort.
    unfold_ops. destruct (nonempty filename); [|repeat split].
    destruct use_libbox64.
    + change (negb (1 =? 0) || _) with true. cbv iota.
      cbn [environ world RunFuncWithEmulator LoadLibraryWithEmulator].
      crank; repeat split.
    + crank. repeat split.
  - unfold_ops. destruct (lib =? 0); [repeat split|]. crank; repeat split.
  - unfold_ops. destruct (lib =? 0); [repeat split|].
    destruct (nonempty symbol); [|repeat split]. crank. repeat split.
  - unfold_ops. destruct (nonempty filename); [|repeat split]. crank. repeat split.
Qed.

(** X11.  What the native [lib_open] asks of the loader: one [dlopen] of
    the filename as given, always with [RTLD_NOW], with [RTLD_GLOBAL]
    exactly when [global] is set and with no other flag; the handle is
    returned as the loader gave it.  On the emulated path [global] is
    not looked at. *)
Theorem lib_open_flags (s : process W) (filename : cstr) (global : bool) :
  nonempty filename = true ->
  (exists flags h,
     events (lib_open filename global false s) = [Edlopen filename flags h] /\
     result (lib_open filename global false s) = Normal h /\
     Z.testbit flags 1 = true /\
     Z.testbit flags 8 = global /\
     forall i, i <> 1 -> i <> 8 -> Z.testbit flags i = false) /\
  lib_open filename true true s = lib_open filename false true s.
Proof.
  intros Hf. split; [|reflexivity].
  unfold_ops. rewrite Hf. crank.
  eexists _, _. split; [reflexivity|]. split; [reflexivity|].
  destruct global; cbn; repeat split;
    intros i H1 H8; destruct i as [|i|i]; try reflexivity;
    repeat (destruct i as [i|i|]; try reflexivity); contradiction.
Qed.
End Outcomes.

(** ** The Windows configuration *)

Lemma string_take_length (n : nat) (t : string) :
  (String.length (Win.string_take n t) <= n)%nat.
Proof.
  revert t. induction n as [|n IH]; intros [|c t]; cbn; try apply Nat.le_0_l.
  apply le_n_S, IH.
Qed.

Lemma string_take_append (n : nat) (a b : string) :
  exists rest, Win.string_take n (a +:+ b) = Win.string_take n a +:+ rest.
Proof.
  revert a. induction n as [|n IH]; intros a.
  - exists EmptyString. now destruct a, b.
  - destruct a as [|c a].
    + exists (Win.string_take (S n) b). reflexivity.
    + destruct (IH a) as [rest Hrest]. exists rest.
      change (String c (Win.string_take n (a +:+ b)) =
              String c (Win.string_take n a +:+ rest)).
      now f_equal.
Qed.

Lemma string_take_all (n : nat) (t : string) :
  (String.length t <= n)%nat -> Win.string_take n t = t.
Proof.
  revert t. induction n as [|n IH]; intros [|c t]; cbn; intros Hl; try reflexivity.
  - inversion Hl.
  - f_equal. apply IH. now apply le_S_n.
Qed.

Ltac unfold_win :=
  unfold Win.lib_open, Win.lib_close, Win.lib_symbol, Win.lib_error,
    Win.CARLA_SAFE_ASSERT_RETURN, Win.CARLA_SAFE_EXCEPTION_RETURN,
    Win.CARLA_SAFE_EXCEPTION, Win.noexcept, Win.try_catch, Win.bind, Win.emit, Win.ret,
    Win.carla_zeroChars, Win.do_LoadLibraryA, Win.do_FreeLibrary,
    Win.do_GetProcAddress, Win.do_GetLastError, Win.do_FormatMessage,
    Win.do_LocalFree, Win.snprintf_libError, Win.result, Win.events, Win.final.

Section Windows.
Context {V : Type} {P : Win.Win32 V}.

(** The whole run of [lib_error] when the filename passes the check and
    [FormatMessage] produces a message. *)
Lemma win_lib_error_run (s : Win.process V) (f : string) (use_libbox64 : bool)
    (v : V) (mem : ptr) (text : string) :
  nonempty (Some f) = true ->
  Win.FormatMessage (Win.world s) 4864 (Win.GetLastError (Win.world s)) 1024 =
    (v, Some (mem, text)) ->
  Win.lib_error (Some f) use_libbox64 s =
    (Win.Process
       (Win.string_take 2047 (Win.error_message f (Win.GetLastError (Win.world s)) text))
       (Win.LocalFree v mem),
     [Win.EGetLastError (Win.GetLastError (Win.world s));
      Win.EFormatMessage 4864 (Win.GetLastError (Win.world s)) 1024 (Some (mem, text));
      Win.ELocalFree mem],
     Win.Returned Win.LibError).
Proof.
  intros Hf Hfm. unfold_win. rewrite Hf.
  cbn [Win.world Win.libError fst snd app].
  change (Z.lor (Z.lor Win.FORMAT_MESSAGE_ALLOCATE_BUFFER Win.FORMAT_MESSAGE_FROM_SYSTEM)
            Win.FORMAT_MESSAGE_IGNORE_INSERTS) with 4864.
  change (Win.MAKELANGID Win.LANG_NEUTRAL Win.SUBLANG_DEFAULT) with 1024.
  rewrite Hfm. cbn [Win.world Win.libError fst snd app].
  change (2048 - 1)%nat with 2047%nat.
  destruct f as [|c f]; [discriminate|]. reflexivity.
Qed.

(** X12.  [lib_error] on Windows, with a filename that passes the check
    and a message that [FormatMessage] could produce: the result is
    never null, even when the last error code is 0; the text left in the
    static buffer starts with the filename, is the formatted message cut
    to fit, has at most 2047 chars, and is the whole message when that
    has at most 2047 chars.  The last error code is read before anything
    else is called, and the buffer that [FormatMessage] allocated is
    freed once, after its text has been copied. *)
Theorem win_lib_error_text (s : Win.process V) (f : string) (use_libbox64 : bool)
    (v : V) (mem : ptr) (text : string) :
  nonempty (Some f) = true ->
  Win.FormatMessage (Win.world s) 4864 (Win.GetLastError (Win.world s)) 1024 =
    (v, Some (mem, text)) ->
  Win.result (Win.lib_error (Some f) use_libbox64 s) = Win.Returned Win.LibError /\
  Win.libError (Win.final (Win.lib_error (Some f) use_libbox64 s)) =
    Win.string_take 2047
      (Win.error_message f (Win.GetLastError (Win.world s)) text) /\
  (String.length (Win.libError (Win.final (Win.lib_error (Some f) use_libbox64 s)))
   <= 2047)%nat /\
  (exists rest,
     Win.libError (Win.final (Win.lib_error (Some f) use_libbox64 s)) =
       Win.string_take 2047 f +:+ rest) /\
  ((String.length (Win.error_message f (Win.GetLastError (Win.world s)) text)
    <= 2047)%nat ->
   Win.libError (Win.final (Win.lib_error (Some f) use_libbox64 s)) =
     Win.error_message f (Win.GetLastError (Win.world s)) text) /\
  Win.events (Win.lib_error (Some f) use_libbox64 s) =
    [Win.EGetLastError (Win.GetLastError (Win.world s));
     Win.EFormatMessage 4864 (Win.GetLastError (Win.world s)) 1024 (Some (mem, text));
     Win.ELocalFree mem].
Proof.
  intros Hf Hfm. rewrite (win_lib_error_run s f use_libbox64 v mem text Hf Hfm).
  unfold Win.result, Win.final, Win.events; cbn [fst snd Win.libError].
  split; [reflexivity|]. split; [reflexivity|].
  split; [apply string_take_length|].
  split; [apply string_take_append|].
  split; [|reflexivity].
  intros Hlen. now apply string_take_all.
Qed.
(** X13.  [lib_error] on Windows does not look at what [FormatMessage]
    returns: when [FormatMessage] fails, for a filename that passes the
    check, the pointer [winErrorString] was never written and the
    formatting reads it all the same, so the call is undefined; the last
    thing that happened is the failed [FormatMessage]. *)
Theorem win_lib_error_unformattable (s : Win.process V) (filename : cstr)
    (use_libbox64 : bool) (v : V) :
  nonempty filename = true ->
  Win.FormatMessage (Win.world s) 4864 (Win.GetLastError (Win.world s)) 1024 = (v, None) ->
  Win.result (Win.lib_error filename use_libbox64 s) = Win.Undefined /\
  Win.events (Win.lib_error filename use_libbox64 s) =
    [Win.EGetLastError (Win.GetLastError (Win.world s));
     Win.EFormatMessage 4864 (Win.GetLastError (Win.world s)) 1024 None].
Proof.
  intros Hf Hfm. unfold_win. rewrite Hf.
  cbn [Win.world Win.libError fst snd app].
  change (Z.lor (Z.lor Win.FORMAT_MESSAGE_ALLOCATE_BUFFER Win.FORMAT_MESSAGE_FROM_SYSTEM)
            Win.FORMAT_MESSAGE_IGNORE_INSERTS) with 4864.
  change (Win.MAKELANGID Win.LANG_NEUTRAL Win.SUBLANG_DEFAULT) with 1024.
  rewrite Hfm. cbn [Win.world Win.libError fst snd app].
  destruct filename; split; reflexivity.
Qed.

(** The text in the static buffer is touched by nothing but a
    [lib_error] whose filename passes the check. *)
Lemma win_buffer_frame (s : Win.process V) (filename symbol : cstr) (lib : lib_t)
    (global use_libbox64 : bool) :
  Win.libError (Win.final (Win.lib_open filename global use_libbox64 s)) = Win.libError s /\
  Win.libError (Win.final (Win.lib_close lib s)) = Win.libError s /\
  Win.libError (Win.final (Win.lib_symbol lib symbol use_libbox64 s)) = Win.libError s /\
  (nonempty filename = false ->
   Win.libError (Win.final (Win.lib_error filename use_libbox64 s)) = Win.libError s).
Proof.
  unfold_win. repeat split.
  - destruct (nonempty filename); [|reflexivity].
    destruct (Win.LoadLibraryA _ _); reflexivity.
  - destruct (lib =? nullptr); [reflexivity|].
    cbn [negb]. destruct (Win.FreeLibrary _ _); reflexivity.
  - destruct (lib =? nullptr); [reflexivity|]. destruct (nonempty symbol); [|reflexivity].
    cbn [negb]. destruct (Win.GetProcAddress _ _ _); reflexivity.
  - intros ->. reflexivity.
Qed.

(** X14.  The message returned by [lib_error] on Windows lives in one
    static buffer.  Of two calls that each produce a message, both
    return the same pointer, and after the second call that pointer
    reads the second message: the text of the first call is gone.
    Between such calls the text stays: [lib_open], [lib_close],
    [lib_symbol] and a [lib_error] whose filename fails the check do not
    touch the buffer. *)
Theorem win_lib_error_buffer_is_shared (s : Win.process V) (f1 f2 : string)
    (filename symbol : cstr) (lib : lib_t) (global use_libbox64 : bool)
    (v1 v2 : V) (mem1 mem2 : ptr) (text1 text2 : string) :
  nonempty (Some f1) = true ->
  nonempty (Some f2) = true ->
  Win.FormatMessage (Win.world s) 4864 (Win.GetLastError (Win.world s)) 1024 =
    (v1, Some (mem1, text1)) ->
  Win.FormatMessage (Win.LocalFree v1 mem1) 4864
    (Win.GetLastError (Win.LocalFree v1 mem1)) 1024 = (v2, Some (mem2, text2)) ->
  Win.result (Win.lib_error (Some f1) use_libbox64 s) = Win.Returned Win.LibError /\
  Win.deref (Win.final (Win.lib_error (Some f1) use_libbox64 s)) Win.LibError =
    Some (Win.string_take 2047
            (Win.error_message f1 (Win.GetLastError (Win.world s)) text1)) /\
  Win.result (Win.lib_error (Some f2) use_libbox64
                (Win.final (Win.lib_error (Some f1) use_libbox64 s))) =
    Win.Returned Win.LibError /\
  Win.deref (Win.final (Win.lib_error (Some f2) use_libbox64
                          (Win.final (Win.lib_error (Some f1) use_libbox64 s))))
    Win.LibError =
    Some (Win.string_take 2047
            (Win.error_message f2 (Win.GetLastError (Win.LocalFree v1 mem1)) text2)) /\
  Win.libError (Win.final (Win.lib_open filename global use_libbox64 s)) = Win.libError s /\
  Win.libError (Win.final (Win.lib_close lib s)) = Win.libError s /\
  Win.libError (Win.final (Win.lib_symbol lib symbol use_libbox64 s)) = Win.libError s /\
  (nonempty filename = false ->
   Win.libError (Win.final (Win.lib_error filename use_libbox64 s)) = Win.libError s).
Proof.
  intros Hf1 Hf2 Hm1 Hm2.
  rewrite (win_lib_error_run s f1 use_libbox64 v1 mem1 text1 Hf1 Hm1).
  unfold Win.final at 1 3 5. cbn [fst].
  match goal with
  | |- context [Win.lib_error (Some f2) use_libbox64 ?s1] =>
      rewrite (win_lib_error_run s1 f2 use_libbox64 v2 mem2 text2 Hf2 Hm2)
  end.
  split; [reflexivity|]. split; [reflexivity|].
  split; [reflexivity|]. split; [reflexivity|].
  apply win_buffer_frame.
Qed.

End Windows.

(** * More concrete runs *)

Lemma InitBox64_outcome_witness :
  result (InitBox64 (P := scripted bridge_failing_init) startup) = Abort.
Proof.
  apply (proj1 (InitBox64_outcome (P := scripted bridge_failing_init) startup)).
  vm_compute; reflexivity.
Defined.

Lemma InitBox64_stops_at_first_failure_witness :
  result (InitBox64 (P := scripted bridge_without_run) startup) = Abort /\
  exists before e err,
    events (InitBox64 (P := scripted bridge_without_run) startup) =
      before ++ e :: diagnostic_of e err /\
    bootstrap_failure e = true /\
    existsb bootstrap_failure before = false.
Proof.
  split; [vm_compute; reflexivity|].
  apply (InitBox64_stops_at_first_failure (P := scripted bridge_without_run) startup).
  vm_compute; reflexivity.
Defined.

Lemma InitBox64_stores_what_dlsym_answered_witness :
  result (InitBox64 (P := scripted good_bridge) startup) = Normal tt /\
  last (events (InitBox64 (P := scripted good_bridge) startup)) =
    Some (Eprintf fmt_initialized).
Proof.
  split; [vm_compute; reflexivity|].
  destruct (InitBox64_stores_what_dlsym_answered (P := scripted good_bridge) startup)
    as (h & _ & _ & _ & _ & Hlast & _); [vm_compute; reflexivity|exact Hlast].
Defined.

Lemma environment_over_a_session_witness :
  exists s',
    perform_all (P := scripted good_bridge) session startup = Some s' /\
    (environ s' !! "BOX64_LD_LIBRARY_PATH" = environ startup !! "BOX64_LD_LIBRARY_PATH" \/
     environ s' !! "BOX64_LD_LIBRARY_PATH" = Some box64_ld_library_path).
Proof.
  eexists. split; [vm_compute; reflexivity|].
  eapply (environment_over_a_session (P := scripted good_bridge) session startup).
  vm_compute; reflexivity.
Defined.

Lemma populated_for_the_rest_of_the_session_witness :
  exists s',
    perform_all (P := scripted good_bridge)
      [Call_lib_error (Some "plugin.so") true; Call_lib_close 4096]
      (final (lib_open (P := scripted good_bridge) (Some "plugin.so") false true startup))
    = Some s' /\
    result (lib_symbol (P := scripted good_bridge) 36864 (Some "VSTPluginMain") true s')
    <> NullCall.
Proof.
  eexists. split; [vm_compute; reflexivity|].
  eapply (populated_for_the_rest_of_the_session (P := scripted good_bridge)
            startup _ (Some "plugin.so") false 36864
            [Call_lib_error (Some "plugin.so") true; Call_lib_close 4096]).
  - vm_compute; reflexivity.
  - discriminate.
  - vm_compute; reflexivity.
Defined.

Lemma emulated_open_swallows_initializer_exception_witness :
  result (lib_open (P := scripted bridge_throwing_init) (Some "plugin.so") false true
            startup) = Normal nullptr /\
  result (lib_symbol (P := scripted bridge_throwing_init) 4096 (Some "doWork") true
            (final (lib_open (P := scripted bridge_throwing_init) (Some "plugin.so")
                      false true startup))) = NullCall.
Proof.
  destruct (emulated_open_swallows_initializer_exception (P := scripted bridge_throwing_init)
              startup (Some "plugin.so") false 4096 (Some "doWork"))
    as (Hr & _ & _ & _ & Hnull); [reflexivity|vm_compute; reflexivity|].
  split; [exact Hr|].
  apply Hnull; [split; reflexivity|discriminate|reflexivity].
Defined.


Lemma lib_open_flags_witness :
  lib_open (P := scripted good_bridge) (Some "libfoo.so") true true startup =
  lib_open (P := scripted good_bridge) (Some "libfoo.so") false true startup.
Proof.
  apply (lib_open_flags (P := scripted good_bridge) startup (Some "libfoo.so") true).
  reflexivity.
Defined.

Lemma win_lib_error_text_witness :
  Win.libError
    (Win.final (Win.lib_error (P := Win.scripted Win.messages) (Some "foo.dll") false
                  (Win.Process "" 126))) =
  "foo.dll: error code 126: The specified module could not be found.".
Proof.
  destruct (win_lib_error_text (P := Win.scripted Win.messages) (Win.Process "" 126)
              "foo.dll" false 126 65536 "The specified module could not be found.")
    as (_ & _ & _ & _ & Hwhole & _); [reflexivity|reflexivity|].
  apply Hwhole. apply Nat.leb_le. vm_compute; reflexivity.
Defined.

Lemma win_lib_error_unformattable_witness :
  Win.result (Win.lib_error (P := Win.scripted Win.messages) (Some "foo.dll") false
                (Win.Process "" 5)) = Win.Undefined.
Proof.
  apply (win_lib_error_unformattable (P := Win.scripted Win.messages)
           (Win.Process "" 5) (Some "foo.dll") false 5); reflexivity.
Defined.

Lemma win_lib_error_buffer_is_shared_witness :
  Win.deref
    (Win.final
       (Win.lib_error (P := Win.scripted Win.messages) (Some "b.dll") false
          (Win.final (Win.lib_error (P := Win.scripted Win.messages) (Some "a.dll") false
                        (Win.Process "" 126)))))
    Win.LibError =
  Some (Win.string_take 2047
          (Win.error_message "b.dll" 126 "The specified module could not be found.")).
Proof.
  destruct (win_lib_error_buffer_is_shared (P := Win.scripted Win.messages)
              (Win.Process "" 126) "a.dll" "b.dll" None None 0 false false
              126 126 65536 65536
              "The specified module could not be found."
              "The specified module could not be found."
              eq_refl eq_refl eq_refl eq_refl)
    as (_ & _ & _ & H & _).
  exact H.
Defined.
